(** * Partial GRIB download: index parsing, field matching, byte ranges, paths

    A shallow embedding of the [Reader] class of [grib_downloading_lab.py]
    and [download_partial_grib.py] and of [aws_cp] of [src/download_utils.py],
    with the properties of the resolution-and-fetch core stated over it.

    Python values that the code treats dynamically (the [int] or [str]
    criteria of a field, the result of [tuple(...)]) keep their dynamic
    type; exceptions are values of [exn]; the local file system, the
    collaborator call log and the mutable attributes of a [Reader] are
    threaded explicitly. Calls of [logger] are left out: they change
    nothing that a method reads or returns. *)

From Stdlib Require Import ZArith List Lia Ascii String DecimalString.
From stdpp Require Import gmap strings.
From Stdlib Require DecimalNat.

Local Open Scope string_scope.
Local Open Scope Z_scope.

(** ** Python exceptions and results *)

Inductive exn : Type :=
| TypeError (msg : string)
| ValueError (msg : string)
| KeyError (msg : string)
| IndexError (msg : string)
| RuntimeError (msg : string)
| FileNotFoundError (msg : string)
| IsADirectoryError (msg : string)
| OtherError (cls msg : string).

Inductive result (A : Type) : Type :=
| Ok (a : A)
| Raise (e : exn).
Arguments Ok {A} a.
Arguments Raise {A} e.

Definition bindR {A B : Type} (r : result A) (k : A -> result B) : result B :=
  match r with
  | Ok a => k a
  | Raise e => Raise e
  end.

Declare Scope py_scope.
Delimit Scope py_scope with py.
Notation "x <-? e ;; k" := (bindR e (fun x => k))
  (at level 100, e at next level, right associativity) : py_scope.
Local Open Scope py_scope.

(** ** Python strings, lists and dynamic values *)

Definition nl : ascii := ascii_of_nat 10.
Definition colon : ascii := ascii_of_nat 58.

Definition str_of_nat (n : nat) : string := NilZero.string_of_uint (Nat.to_uint n).

(** [s.split(sep)] for a one-character separator: never the empty list. *)
Fixpoint split (sep : ascii) (s : string) : list string :=
  match s with
  | EmptyString => [EmptyString]
  | String c s' =>
      if Ascii.eqb c sep then EmptyString :: split sep s'
      else match split sep s' with
           | [] => [String c EmptyString]
           | w :: ws => String c w :: ws
           end
  end.

(** [f.readlines()] on text whose line terminator is the newline character
    (what Python's universal-newline reading hands to the program): every
    line keeps its terminator, the last line may lack one. *)
Fixpoint readlines (s : string) : list string :=
  match s with
  | EmptyString => []
  | String c s' =>
      if Ascii.eqb c nl then String c EmptyString :: readlines s'
      else match readlines s' with
           | [] => [String c EmptyString]
           | l :: ls => String c l :: ls
           end
  end.

(** [l[i]] on a list, for a non-negative index. *)
Definition py_index {A : Type} (l : list A) (i : nat) : result A :=
  match nth_error l i with
  | Some a => Ok a
  | None => Raise (IndexError "list index out of range")
  end.

(** The characters of a string, as one-character strings: what iterating a
    [str] yields. *)
Fixpoint chars (s : string) : list string :=
  match s with
  | EmptyString => []
  | String c s' => String c EmptyString :: chars s'
  end.

(** A call of [tuple] on string arguments: no argument gives the empty tuple,
    one argument is iterated, more are refused. *)
Definition py_tuple (args : list string) : result (list string) :=
  match args with
  | [] => Ok []
  | [s] => Ok (chars s)
  | _ => Raise (TypeError ("tuple expected at most 1 argument, got "
                            +:+ str_of_nat (length args)))
  end.

Inductive pyval : Type :=
| PyInt (z : Z)
| PyStr (s : string).

(** [s.startswith(prefix)]: the argument must be a [str]. *)
Definition py_startswith (s : string) (prefix : pyval) : result bool :=
  match prefix with
  | PyStr p => Ok (String.prefix p s)
  | PyInt _ =>
      Raise (TypeError "startswith first arg must be str or a tuple of str, not int")
  end.

(** [v == s] for a dynamic value and a [str]. *)
Definition py_eq_str (v : pyval) (s : string) : bool :=
  match v with
  | PyStr a => String.eqb a s
  | PyInt _ => false
  end.

(** A dict literal with string keys, in source order. *)
Definition pydict (V : Type) : Type := list (string * V).

Fixpoint dict_get {V : Type} (d : pydict V) (k : string) : option V :=
  match d with
  | [] => None
  | (k', v) :: d' => if String.eqb k' k then Some v else dict_get d' k
  end.

Definition dict_in {V : Type} (k : string) (d : pydict V) : bool :=
  match dict_get d k with Some _ => true | None => false end.

Definition dict_item {V : Type} (d : pydict V) (k : string) : result V :=
  match dict_get d k with
  | Some v => Ok v
  | None => Raise (KeyError k)
  end.

Definition dict_keys {V : Type} (d : pydict V) : list string := map fst d.

(** ** The product catalog ([PRODUCTS]) *)

Record Product : Type := {
  basedir : string;
  subdir : string;
  file_base : string;
  file_ext : string;
  field_lookup : pydict (pydict pyval);
  regions : option (list string)
}.

Definition NBM_field_lookup : pydict (pydict pyval) :=
  [ ("RAIN1HR", [("abbrevName", PyStr "APCP");
                 ("productDefinitionTemplateNumber", PyInt 8);
                 ("lengthOfTimeRange", PyInt 1)]);
    ("RAIN6HR", [("abbrevName", PyStr "APCP");
                 ("productDefinitionTemplateNumber", PyInt 8);
                 ("lengthOfTimeRange", PyInt 6)]);
    ("ICE1HR", [("abbrevName", PyStr "FICEAC");
                ("lengthOfTimeRange", PyInt 1)]);
    ("SNOW1HR", [("abbrevName", PyStr "ASNOW");
                 ("productDefinitionTemplateNumber", PyInt 8);
                 ("lengthOfTimeRange", PyInt 1)]);
    ("TEMP", [("abbrevName", PyStr "TMP");
              ("level", PyInt 2);
              ("productDefinitionTemplateNumber", PyInt 0)]);
    ("APPTEMP", [("abbrevName", PyStr "APTMP");
                 ("level", PyInt 2);
                 ("productDefinitionTemplateNumber", PyInt 0)]);
    ("RH", [("abbrevName", PyStr "RH");
            ("level", PyInt 2);
            ("productDefinitionTemplateNumber", PyInt 0)]);
    ("DEWPOINT", [("abbrevName", PyStr "DPT");
                  ("level", PyInt 2);
                  ("productDefinitionTemplateNumber", PyInt 0)]);
    ("WINDSPEED", [("abbrevName", PyStr "WIND");
                   ("level", PyInt 10);
                   ("productDefinitionTemplateNumber", PyInt 0)]);
    ("WINDGUST", [("abbrevName", PyStr "GUST");
                  ("level", PyInt 10);
                  ("productDefinitionTemplateNumber", PyInt 0)]);
    ("CEILING", [("abbrevName", PyStr "CEIL");
                 ("typeOfLevel", PyStr "cloudBase")]);
    ("VISIBILITY", [("abbrevName", PyStr "VIS")]);
    ("MAXREF", [("abbrevName", PyStr "MAXREF");
                ("level", PyInt 1000)]);
    ("VIL", [("abbrevName", PyStr "VIL")]);
    ("ECHOTOP", [("abbrevName", PyStr "RETOP")]);
    ("WAVEHEIGHT", [("abbrevName", PyStr "HTSGW");
                    ("productDefinitionTemplateNumber", PyInt 0)]);
    ("PROBTHDR1HR", [("abbrevName", PyStr "TSTM");
                     ("lengthOfTimeRange", PyInt 1)]);
    ("PROBTHDR3HR", [("abbrevName", PyStr "TSTM");
                     ("lengthOfTimeRange", PyInt 3)]);
    ("PROBTHDR6HR", [("abbrevName", PyStr "TSTM");
                     ("lengthOfTimeRange", PyInt 6)]) ].

(** ** Field matching and byte-range resolution

    [_is_line_matching_field] and [_get_byterange_from_index] have the same
    text in both scripts and read nothing of the [Reader] but its product. *)

Definition _is_line_matching_field (product : Product) (index_line field : string)
  : result bool :=
  field_args <-? dict_item (field_lookup product) field ;;
  let cols := firstn 7 (split colon index_line) in
  match cols with
  | [num; starting_byte; date; var_name; level; time_length; math_params] =>
      let target_level :=
        match dict_get field_args "level" with
        | Some v => v
        | None => PyStr EmptyString
        end in
      let target_time_length :=
        match dict_get field_args "lengthOfTimeRange" with
        | Some v => v
        | None => PyStr EmptyString
        end in
      abbrev <-? dict_item field_args "abbrevName" ;;
      if py_eq_str abbrev var_name then
        b1 <-? py_startswith level target_level ;;
        if b1 then
          b2 <-? py_startswith time_length target_time_length ;;
          if b2 then Ok (String.eqb math_params EmptyString) else Ok false
        else Ok false
      else Ok false
  | _ =>
      Raise (ValueError ("not enough values to unpack (expected 7, got "
                         +:+ str_of_nat (length cols) +:+ ")"))
  end.

(** The [for n, line in enumerate(file_lines, start=1)] loop: [rest] is what
    is left of [file_lines], [n] the number of its first line. *)
Fixpoint byterange_loop (product : Product) (field : string)
    (file_lines : list string) (n : nat) (rest : list string)
  : result (option (list string)) :=
  match rest with
  | [] => Ok None
  | line :: rest' =>
      m <-? _is_line_matching_field product line field ;;
      if m then
        starting_byte <-? py_index (split colon line) 1 ;;
        if (length file_lines <? n + 1)%nat then
          t <-? py_tuple [starting_byte] ;; Ok (Some t)
        else
          next <-? py_index file_lines n ;;
          ending_byte <-? py_index (split colon next) 1 ;;
          t <-? py_tuple [starting_byte; ending_byte] ;; Ok (Some t)
      else byterange_loop product field file_lines (S n) rest'
  end.

(** The part of [_get_byterange_from_index] after the file has been read. *)
Definition byterange_of_lines (product : Product) (field : string)
    (file_lines : list string) : result (option (list string)) :=
  byterange_loop product field file_lines 1 file_lines.

(** ** Rendering of Python values

    [repr] of the strings, integers, lists and dicts of the catalog. The
    strings of the catalog hold no quote, backslash or control character, so
    [repr] only wraps them in single quotes. *)

Definition str_of_Z (z : Z) : string :=
  if z <? 0 then "-" +:+ NilZero.string_of_uint (N.to_uint (Z.abs_N z))
  else NilZero.string_of_uint (N.to_uint (Z.abs_N z)).

Definition repr_str (s : string) : string := "'" +:+ s +:+ "'".

Definition repr_pyval (v : pyval) : string :=
  match v with
  | PyInt z => str_of_Z z
  | PyStr s => repr_str s
  end.

Fixpoint join_with (sep : string) (l : list string) : string :=
  match l with
  | [] => EmptyString
  | [x] => x
  | x :: l' => x +:+ sep +:+ join_with sep l'
  end.

Definition repr_list (l : list string) : string :=
  "[" +:+ join_with ", " (map repr_str l) +:+ "]".

Definition repr_dict {V : Type} (repr_v : V -> string) (d : pydict V) : string :=
  "{" +:+ join_with ", " (map (fun kv => repr_str (fst kv) +:+ ": " +:+ repr_v (snd kv)) d)
      +:+ "}".

Definition repr_product (p : Product) : string :=
  "{" +:+ join_with ", "
    ([ "'basedir': " +:+ repr_str (basedir p);
       "'subdir': " +:+ repr_str (subdir p);
       "'file_base': " +:+ repr_str (file_base p);
       "'file_ext': " +:+ repr_str (file_ext p);
       "'field_lookup': " +:+ repr_dict (repr_dict repr_pyval) (field_lookup p) ]
     ++ match regions p with
        | Some rs => [ "'regions': " +:+ repr_list rs ]
        | None => []
        end)
  +:+ "}".

Definition repr_dict_keys {V : Type} (d : pydict V) : string :=
  "dict_keys(" +:+ repr_list (dict_keys d) +:+ ")".

(** [str(x)] of a value that is a [str] or [None]. *)
Definition str_of_optional (o : option string) : string :=
  match o with
  | Some s => s
  | None => "None"
  end.

(** Truth value of an optional string argument ([if region], [if field]). *)
Definition truthy_str (o : option string) : bool :=
  match o with
  | Some (String _ _) => true
  | _ => false
  end.

(** [s.lower()] on the ASCII letters. *)
Definition lower_ascii (c : ascii) : ascii :=
  let n := nat_of_ascii c in
  if ((65 <=? n) && (n <=? 90))%nat then ascii_of_nat (n + 32) else c.

Fixpoint lower (s : string) : string :=
  match s with
  | EmptyString => EmptyString
  | String c s' => String (lower_ascii c) (lower s')
  end.

Definition str_in (s : string) (l : list string) : bool :=
  existsb (String.eqb s) l.

(** [os.path.join(a, b)] of [posixpath]. *)
Definition path_join (a b : string) : string :=
  if String.prefix "/" b then b
  else if String.eqb a EmptyString then b
  else if String.eqb (substring (String.length a - 1) 1 a) "/" then a +:+ b
  else a +:+ "/" +:+ b.

(** ** Dates *)

Record datetime : Type := {
  year : Z; month : Z; day : Z; hour : Z; minute : Z; second : Z
}.

(** Days since 1970-01-01 of a proleptic Gregorian date. *)
Definition days_from_civil (y m d : Z) : Z :=
  let y' := if m <=? 2 then y - 1 else y in
  let era := y' / 400 in
  let yoe := y' - era * 400 in
  let doy := (153 * (m + (if 2 <? m then -3 else 9)) + 2) / 5 + d - 1 in
  let doe := yoe * 365 + yoe / 4 - yoe / 100 + doy in
  era * 146097 + doe - 719468.

Definition epoch_seconds (t : datetime) : Z :=
  days_from_civil (year t) (month t) (day t) * 86400
  + hour t * 3600 + minute t * 60 + second t.

(** Modelled from the spec: the lead duration of the path templates,
    [valid - issuance] in whole hours (the [lead.hour] of the [idsse]
    path builder, which is not part of this repository). *)
Definition lead_hour (issue valid : datetime) : Z :=
  Z.quot (epoch_seconds valid - epoch_seconds issue) 3600.

(** ** Template formatting

    The templates of the catalog are Python format strings whose replacement
    fields have the shape [{object.attribute:0Wd}]; [str.format] is modelled
    for that shape (literal text outside braces, an integer attribute of
    [issue], [valid] or [lead], zero padding to a width of [W]). *)

Definition zero_pad (width : nat) (z : Z) : string :=
  let digits := NilZero.string_of_uint (N.to_uint (Z.abs_N z)) in
  let sign := if z <? 0 then "-" else EmptyString in
  let used := (String.length sign + String.length digits)%nat in
  sign +:+ String.concat EmptyString (repeat "0" (width - used)%nat) +:+ digits.

Definition digit_of_ascii (c : ascii) : option nat :=
  let n := nat_of_ascii c in
  if ((48 <=? n) && (n <=? 57))%nat then Some (n - 48)%nat else None.

Fixpoint nat_of_digits (acc : nat) (s : string) : option nat :=
  match s with
  | EmptyString => Some acc
  | String c s' =>
      match digit_of_ascii c with
      | Some d => nat_of_digits (10 * acc + d)%nat s'
      | None => None
      end
  end.

(** The width of a format specification [0Wd]. *)
Definition spec_width (spec : string) : option nat :=
  match spec with
  | String z rest =>
      if Ascii.eqb z (ascii_of_nat 48) then
        match String.length rest with
        | O => None
        | S k =>
            if String.eqb (substring k 1 rest) "d"
            then nat_of_digits 0 (substring 0 k rest)
            else None
        end
      else None
  | EmptyString => None
  end.

Definition datetime_attr (t : datetime) (attr : string) : option Z :=
  if String.eqb attr "year" then Some (year t)
  else if String.eqb attr "month" then Some (month t)
  else if String.eqb attr "day" then Some (day t)
  else if String.eqb attr "hour" then Some (hour t)
  else if String.eqb attr "minute" then Some (minute t)
  else if String.eqb attr "second" then Some (second t)
  else None.

Definition field_value (issue valid : datetime) (name : string) : option Z :=
  match split (ascii_of_nat 46) name with
  | [obj; attr] =>
      if String.eqb obj "issue" then datetime_attr issue attr
      else if String.eqb obj "valid" then datetime_attr valid attr
      else if String.eqb obj "lead" then
        if String.eqb attr "hour" then Some (lead_hour issue valid) else None
      else None
  | _ => None
  end.

Definition render_field (issue valid : datetime) (body : string) : result string :=
  match split colon body with
  | [name; spec] =>
      match field_value issue valid name, spec_width spec with
      | Some z, Some w => Ok (zero_pad w z)
      | _, _ => Raise (ValueError ("unsupported replacement field " +:+ body))
      end
  | _ => Raise (ValueError ("unsupported replacement field " +:+ body))
  end.

(** [template.format(issue=issue, valid=valid, lead=lead)]: [field] holds
    the text read since an opening brace, if one is open. *)
Fixpoint format_go (issue valid : datetime) (field : option string) (s : string)
  : result string :=
  match s with
  | EmptyString =>
      match field with
      | None => Ok EmptyString
      | Some _ => Raise (ValueError "expected '}' before end of string")
      end
  | String c s' =>
      match field with
      | None =>
          if Ascii.eqb c (ascii_of_nat 123) then format_go issue valid (Some EmptyString) s'
          else r <-? format_go issue valid None s' ;; Ok (String c r)
      | Some body =>
          if Ascii.eqb c (ascii_of_nat 125) then
            v <-? render_field issue valid body ;;
            r <-? format_go issue valid None s' ;;
            Ok (v +:+ r)
          else format_go issue valid (Some (body +:+ String c EmptyString)) s'
      end
  end.

Definition format (template : string) (issue valid : datetime) : result string :=
  format_go issue valid None template.

(** ** The path builder ([idsse.common.path_builder.PathBuilder]) *)

Module PathBuilder.

Record t : Type := {
  basedir : string;
  subdir : string;
  file_base : string;
  file_ext : string
}.

Definition set_file_ext (pb : t) (ext : string) : t :=
  {| basedir := basedir pb; subdir := subdir pb;
     file_base := file_base pb; file_ext := ext |}.

(** Modelled from the spec: [build_path] of the [idsse] path builder, which
    is not part of this repository. The remote key is the base directory,
    the sub-directory template and the file-base template followed by the
    current file extension, with the calendar components of the issuance
    time and the lead hours substituted. *)
Definition build_path (pb : t) (issue valid : datetime) : result string :=
  format (path_join (path_join (basedir pb) (subdir pb))
                    (file_base pb +:+ file_ext pb))
         issue valid.

End PathBuilder.

(** ** The local file system and the object-store collaborator *)

Inductive node : Type :=
| File (content : string)
| Dir.

(** What one run of the [s5cmd] command line does: the text it leaves at the
    destination path, if any, and what [exec_cmd] returns or raises. *)
Record cp_effect : Type := {
  cp_written : option string;
  cp_result : result (list string)
}.

Record World : Type := {
  fs : gmap string node;
  calls : list (list string)
}.

(** What the program takes from outside this repository: [to_compact] and
    [exec_cmd] of [idsse.common.utils] and [parse] of [dateutil.parser].
    The outcome of a command may depend on the whole local state and on the
    commands run before it. *)
Class Externals : Type := {
  to_compact : datetime -> string;
  dt_parse : string -> result datetime;
  s5cmd : World -> list string -> cp_effect
}.

Definition exists_path (w : World) (p : string) : bool :=
  match fs w !! p with Some _ => true | None => false end.

Definition isfile (w : World) (p : string) : bool :=
  match fs w !! p with Some (File _) => true | _ => false end.

(** [open(filepath, 'r').readlines()]. *)
Definition open_readlines (w : World) (filepath : option string) : result (list string) :=
  match filepath with
  | None => Raise (TypeError "expected str, bytes or os.PathLike object, not NoneType")
  | Some p =>
      match fs w !! p with
      | Some (File content) => Ok (readlines content)
      | Some Dir => Raise (IsADirectoryError p)
      | None => Raise (FileNotFoundError p)
      end
  end.

(** ** State and exceptions of the methods *)

Definition M (S A : Type) : Type := S -> result A * S.

Definition ret {S A : Type} (a : A) : M S A := fun s => (Ok a, s).
Definition raise {S A : Type} (e : exn) : M S A := fun s => (Raise e, s).
Definition bind {S A B : Type} (m : M S A) (k : A -> M S B) : M S B :=
  fun s => match m s with
           | (Ok a, s') => k a s'
           | (Raise e, s') => (Raise e, s')
           end.
Definition lift {S A : Type} (r : result A) : M S A := fun s => (r, s).
Definition gets {S A : Type} (f : S -> A) : M S A := fun s => (Ok (f s), s).
Definition modify {S : Type} (f : S -> S) : M S unit := fun s => (Ok tt, f s).

(** [try: body finally: cleanup]. *)
Definition try_finally {S A : Type} (body : M S A) (cleanup : M S unit) : M S A :=
  fun s => match body s with
           | (r, s1) =>
               match cleanup s1 with
               | (Ok _, s2) => (r, s2)
               | (Raise e, s2) => (Raise e, s2)
               end
           end.

(** [try: body except FileNotFoundError: handler]. *)
Definition except_FileNotFoundError {S A : Type} (body : M S A) (handler : M S A) : M S A :=
  fun s => match body s with
           | (Raise (FileNotFoundError _), s1) => handler s1
           | other => other
           end.

Notation "x <- e ;; k" := (bind e (fun x => k))
  (at level 100, e at next level, right associativity) : py_scope.

(** [exec_cmd(commands)] for a copy to [dest]: the call is recorded, the
    text written (if any) appears at [dest]. *)
Definition exec_cmd `{Externals} (commands : list string) (dest : string)
  : M World (list string) :=
  fun w =>
    let eff := s5cmd w commands in
    (cp_result eff,
     {| fs := match cp_written eff with
              | Some content => <[dest := File content]> (fs w)
              | None => fs w
              end;
        calls := calls w ++ [commands] |}).

(** ** The [Reader] object

    Both scripts give a [Reader] the same attributes. Methods that touch
    only the object run on [Reader], those that touch only the file system
    and the collaborator run on [World], the others on both. *)

Record Reader : Type := {
  _product_name : string;
  _product : Product;
  _path_builder : PathBuilder.t;
  _file_ext : string;
  _region : string
}.

Definition set__region (v : string) (r : Reader) : Reader :=
  {| _product_name := _product_name r; _product := _product r;
     _path_builder := _path_builder r; _file_ext := _file_ext r; _region := v |}.

Definition set__file_ext (v : string) (r : Reader) : Reader :=
  {| _product_name := _product_name r; _product := _product r;
     _path_builder := _path_builder r; _file_ext := v; _region := _region r |}.

Definition set__path_builder_file_ext (v : string) (r : Reader) : Reader :=
  {| _product_name := _product_name r; _product := _product r;
     _path_builder := PathBuilder.set_file_ext (_path_builder r) v;
     _file_ext := _file_ext r; _region := _region r |}.

Record State : Type := {
  self : Reader;
  os : World
}.

Definition on_self {A : Type} (m : M Reader A) : M State A :=
  fun s => match m (self s) with
           | (r, rd) => (r, {| self := rd; os := os s |})
           end.

Definition on_os {A : Type} (m : M World A) : M State A :=
  fun s => match m (os s) with
           | (r, w) => (r, {| self := self s; os := w |})
           end.

(** Truth value of a tuple-or-[None] ([if not byte_range]). *)
Definition truthy_tuple (t : option (list string)) : bool :=
  match t with
  | Some (_ :: _) => true
  | _ => false
  end.

(** Truth value of an optional integer argument ([if concurrency]). *)
Definition truthy_int (o : option Z) : bool :=
  match o with
  | Some z => negb (z =? 0)
  | None => false
  end.

(** [_get_byterange_from_index]: the same text in both scripts. *)
Definition _get_byterange_from_index (filepath : option string) (field : string)
  : M State (option (list string)) :=
  fun s =>
    (file_lines <-? open_readlines (os s) filepath ;;
     byterange_of_lines (_product (self s)) field file_lines,
     s).

(** The constructor, given the [PRODUCTS] table and the [set_region] of the
    script: the same text in both scripts but for the class of the
    exception. *)
Definition Reader_init (PRODUCTS : pydict Product) (unsupported : string -> exn)
    (set_region : string -> M Reader unit) (product region : string)
  : result Reader :=
  match dict_get PRODUCTS product with
  | None => Raise (unsupported product)
  | Some p =>
      let r := {| _product_name := product;
                  _product := p;
                  _path_builder :=
                    {| PathBuilder.basedir := basedir p;
                       PathBuilder.subdir := subdir p;
                       PathBuilder.file_base := file_base p;
                       PathBuilder.file_ext := file_ext p |};
                  _file_ext := file_ext p;
                  _region := EmptyString |} in
      match set_region region r with
      | (Ok _, r') => Ok r'
      | (Raise e, _) => Raise e
      end
  end.

(** ** [src/download_utils.py] *)

Module download_utils.
Section WithExternals.
Context `{Externals}.

(** The [commands] list that [aws_cp] builds; the byte range is not part
    of it (the lines that added it are commented out in the source). *)
Definition aws_cp_commands (path dest : string)
    (concurrency part_size : option Z) (disable_cache : bool) : list string :=
  (["s5cmd"; "--no-sign-request"; "cp"]
   ++ (if truthy_int concurrency
       then ["--concurrency"; str_of_Z (default 0 concurrency)] else [])
   ++ (if truthy_int part_size
       then ["--part-size"; str_of_Z (default 0 part_size)] else [])
   ++ (if disable_cache then ["--cache-control"; "no-cache"] else [])
   ++ [path; dest])%list.

Definition aws_cp (path dest : string) (byte_range : option (list string))
    (concurrency part_size : option Z) (disable_cache : bool) : M World bool :=
  let commands := aws_cp_commands path dest concurrency part_size disable_cache in
  except_FileNotFoundError
    (result <- exec_cmd commands dest ;; ret true)
    (ret false).

End WithExternals.
End download_utils.

(** ** [grib_downloading_lab.py] *)

Module Lab.
Section WithExternals.
Context `{Externals}.

Definition NBM : Product :=
  {| basedir := "s3://noaa-nbm-grib2-pds";
     subdir := "blend.{issue.year:04d}{issue.month:02d}{issue.day:02d}/{issue.hour:02d}/core/";
     file_base := "blend.t{issue.hour:02d}z.core.f{lead.hour:03d}";
     file_ext := ".grib2";
     field_lookup := NBM_field_lookup;
     regions := Some ["CO"; "HI"; "PR"; "GU"; "AK"] |}.

Definition PRODUCTS : pydict Product := [ ("NBM", NBM) ].

Definition set_region (region : string) : M Reader unit :=
  product <- gets _product ;;
  rs <- lift (match regions product with
              | Some rs => Ok rs
              | None => Raise (KeyError "regions")
              end) ;;
  if negb (str_in region rs) then
    raise (ValueError
             ("(" +:+ repr_str ("Region " +:+ region
                                +:+ " not one of the regions for this AWS product: ")
              +:+ ", " +:+ repr_list rs +:+ ")"))
  else
    u1 <- modify (set__region (lower region)) ;;
    u2 <- modify (fun r => set__file_ext ("." +:+ _region r +:+ file_ext (_product r)) r) ;;
    modify (fun r => set__path_builder_file_ext (_file_ext r) r).

Definition init (product region : string) : result Reader :=
  Reader_init PRODUCTS
    (fun p => ValueError ("Product " +:+ p
                          +:+ " not one of supported AWS weather products: "
                          +:+ repr_dict_keys PRODUCTS))
    set_region product region.

Definition get_local_filename (issue valid : datetime)
    (region field : option string) : M Reader string :=
  current <- gets _region ;;
  u <- (if truthy_str region && negb (String.eqb (default EmptyString region) current)
        then set_region (default EmptyString region)
        else ret tt) ;;
  name <- gets _product_name ;;
  let _path := name +:+ "_" +:+ to_compact issue +:+ "_" +:+ to_compact valid in
  let _path := if truthy_str field
               then _path +:+ "_" +:+ default EmptyString field
               else _path in
  ext <- gets _file_ext ;;
  ret (_path +:+ ext).

Definition get_source_path (issue valid : datetime) (region : option string)
  : M Reader string :=
  current <- gets _region ;;
  u <- (if truthy_str region && negb (String.eqb (default EmptyString region) current)
        then set_region (default EmptyString region)
        else ret tt) ;;
  pb <- gets _path_builder ;;
  lift (PathBuilder.build_path pb issue valid).

Definition _download_file (src dest : string) (byte_range : option (list string))
  : M World string :=
  present <- gets (fun w => exists_path w dest) ;;
  if present then ret dest
  else
    copied <- download_utils.aws_cp src dest byte_range None None false ;;
    ret dest.

Definition _download_index_file (issue valid : datetime) (dest_dir : string)
  : M State (option string) :=
  original_config_ext <- gets (fun s => _file_ext (self s)) ;;
  original_path_builder_ext <-
    gets (fun s => PathBuilder.file_ext (_path_builder (self s))) ;;
  u1 <- on_self (modify (fun r => set__file_ext (_file_ext r +:+ ".idx") r)) ;;
  u2 <- on_self (modify (fun r =>
          set__path_builder_file_ext
            (PathBuilder.file_ext (_path_builder r) +:+ ".idx") r)) ;;
  local_name <- on_self (get_local_filename issue valid None None) ;;
  let index_dest_path := path_join dest_dir local_name in
  index_src_path <- on_self (get_source_path issue valid None) ;;
  index_file_path <-
    try_finally
      (on_os (_download_file index_src_path index_dest_path None))
      (u3 <- on_self (modify (set__file_ext original_config_ext)) ;;
       on_self (modify (set__path_builder_file_ext original_path_builder_ext))) ;;
  regular <- gets (fun s => isfile (os s) index_file_path) ;;
  ret (if regular then Some index_file_path else None).

Definition download_field (issue_dt valid_dt field dest_dir : string)
  : M State string :=
  product <- gets (fun s => _product (self s)) ;;
  if negb (dict_in field (field_lookup product)) then
    raise (ValueError
             ("Field " +:+ field +:+ " not recognized for product "
              +:+ repr_product product +:+ ". "
              +:+ "Supported fields: " +:+ repr_dict_keys (field_lookup product)))
  else
    issue_datetime <- lift (dt_parse issue_dt) ;;
    valid_datetime <- lift (dt_parse valid_dt) ;;
    index_filepath <- _download_index_file issue_datetime valid_datetime dest_dir ;;
    byte_range <- _get_byterange_from_index index_filepath field ;;
    if negb (truthy_tuple byte_range) then
      raise (RuntimeError
               ("Cannot find field " +:+ field +:+ " in index file at "
                +:+ str_of_optional index_filepath))
    else
      s3_path <- on_self (get_source_path issue_datetime valid_datetime None) ;;
      dest_filepath <-
        on_self (get_local_filename issue_datetime valid_datetime None (Some field)) ;;
      let dest_path := path_join dest_dir dest_filepath in
      on_os (_download_file s3_path dest_path byte_range).

End WithExternals.
End Lab.

(** ** [download_partial_grib.py] *)

Module Partial.
Section WithExternals.
Context `{Externals}.

Definition NBM : Product :=
  {| basedir := "s3://noaa-nbm-grib2-pds";
     subdir := "blend.{issue.year:04d}{issue.month:02d}{issue.day:02d}/{issue.hour:02d}/core/";
     file_base := "blend.t{issue.hour:02d}z.core.f{lead.hour:03d}";
     file_ext := ".grib2";
     field_lookup := NBM_field_lookup;
     regions := None |}.

Definition PRODUCTS : pydict Product := [ ("NBM", NBM) ].

Definition aws_cp (path dest : string) (byte_range : option (list string))
  : M World bool :=
  let commands : list string :=
    (["s5cmd"; "--no-sign-request"; "cp"; path; dest]
     ++ match byte_range with
        | Some (range_start :: rest) =>
            let range_end := match rest with
                             | [] => EmptyString
                             | second_item :: _ => second_item
                             end in
            ["--metadata"; "bytes=" +:+ range_start +:+ "-" +:+ range_end]
        | _ => []
        end)%list in
  except_FileNotFoundError
    (result <- exec_cmd commands dest ;; ret true)
    (ret false).

Definition set_region (region : string) : M Reader unit :=
  u <- modify (set__region region) ;;
  modify (fun r => set__file_ext ("." +:+ region +:+ file_ext (_product r)) r).

Definition init (product region : string) : result Reader :=
  Reader_init PRODUCTS
    (fun p => RuntimeError ("Product " +:+ p
                            +:+ " not in supported AWS weather products: "
                            +:+ repr_dict_keys PRODUCTS))
    set_region product region.

Definition _get_dest_filepath (issue valid : datetime) (field : option string)
  : M Reader string :=
  name <- gets _product_name ;;
  let _path := name +:+ "_" +:+ to_compact issue +:+ "_" +:+ to_compact valid in
  let _path := if truthy_str field
               then _path +:+ "_" +:+ default EmptyString field
               else _path in
  region <- gets _region ;;
  ext <- gets _file_ext ;;
  ret (_path +:+ "." +:+ region +:+ ext).

Definition _download_file (src dest : string) (byte_range : option (list string))
  : M World string :=
  present <- gets (fun w => exists_path w dest) ;;
  if present then ret dest
  else
    copied <- aws_cp src dest byte_range ;;
    ret dest.

Definition _download_index_file (issue valid : datetime) (dest_dir : string)
  : M State (option string) :=
  original_config_ext <- gets (fun s => _file_ext (self s)) ;;
  original_path_builder_ext <-
    gets (fun s => PathBuilder.file_ext (_path_builder (self s))) ;;
  u1 <- on_self (modify (fun r => set__file_ext (_file_ext r +:+ ".idx") r)) ;;
  u2 <- on_self (modify (fun r =>
          set__path_builder_file_ext
            (PathBuilder.file_ext (_path_builder r) +:+ ".idx") r)) ;;
  local_name <- on_self (_get_dest_filepath issue valid None) ;;
  let dest_path := path_join dest_dir local_name in
  pb <- gets (fun s => _path_builder (self s)) ;;
  src_path <- lift (PathBuilder.build_path pb issue valid) ;;
  present <- gets (fun s => exists_path (os s) dest_path) ;;
  if present then ret (Some dest_path)
  else
    index_file_path <-
      try_finally
        (on_os (_download_file src_path dest_path None))
        (u3 <- on_self (modify (set__file_ext original_config_ext)) ;;
         on_self (modify (set__path_builder_file_ext original_path_builder_ext))) ;;
    regular <- gets (fun s => isfile (os s) index_file_path) ;;
    ret (if regular then Some index_file_path else None).

Definition download_field (issue_dt valid_dt field dest_dir : string)
  : M State string :=
  product <- gets (fun s => _product (self s)) ;;
  if negb (dict_in field (field_lookup product)) then
    raise (ValueError
             ("Field " +:+ field +:+ " not recognized for product "
              +:+ repr_product product +:+ ". "
              +:+ "Supported fields: " +:+ repr_dict_keys (field_lookup product)))
  else
    issue_datetime <- lift (dt_parse issue_dt) ;;
    valid_datetime <- lift (dt_parse valid_dt) ;;
    index_filepath <- _download_index_file issue_datetime valid_datetime dest_dir ;;
    byte_range <- _get_byterange_from_index index_filepath field ;;
    if negb (truthy_tuple byte_range) then
      raise (RuntimeError
               ("Cannot find field " +:+ field +:+ " in index file at "
                +:+ str_of_optional index_filepath))
    else
      pb <- gets (fun s => _path_builder (self s)) ;;
      s3_path <- lift (PathBuilder.build_path pb issue_datetime valid_datetime) ;;
      dest_filepath <-
        on_self (_get_dest_filepath issue_datetime valid_datetime (Some field)) ;;
      let dest_path := path_join dest_dir dest_filepath in
      on_os (_download_file s3_path dest_path byte_range).

End WithExternals.
End Partial.

(** ** A concrete environment

    Modelled from the spec: the timestamps of a local file name "rendered in
    a compact, lexically sortable form", as in the file name of the spec's
    example ([20240905T120000Z]); the [to_compact] of [idsse] is not part of
    this repository. *)
Definition to_compact_spec (t : datetime) : string :=
  zero_pad 4 (year t) +:+ zero_pad 2 (month t) +:+ zero_pad 2 (day t) +:+ "T"
  +:+ zero_pad 2 (hour t) +:+ zero_pad 2 (minute t) +:+ zero_pad 2 (second t) +:+ "Z".

(** A reading of timestamps of the shape [YYYY-MM-DDTHH:MM:SSZ], enough for
    the examples. *)
Definition dt_parse_iso (s : string) : result datetime :=
  match nat_of_digits 0 (substring 0 4 s), nat_of_digits 0 (substring 5 2 s),
        nat_of_digits 0 (substring 8 2 s), nat_of_digits 0 (substring 11 2 s),
        nat_of_digits 0 (substring 14 2 s), nat_of_digits 0 (substring 17 2 s) with
  | Some y, Some mo, Some d, Some h, Some mi, Some sec =>
      if (String.length s =? 20)%nat then
        Ok {| year := Z.of_nat y; month := Z.of_nat mo; day := Z.of_nat d;
              hour := Z.of_nat h; minute := Z.of_nat mi; second := Z.of_nat sec |}
      else Raise (ValueError ("Unknown string format: " +:+ s))
  | _, _, _, _, _, _ => Raise (ValueError ("Unknown string format: " +:+ s))
  end.

(** A remote store given as a table from source URI to object text: a copy
    of a listed object succeeds and writes it, any other copy fails with the
    error of a failed command. The source is the last but one word of the
    command of [download_utils.aws_cp]. *)
Definition s5cmd_of_store (store : pydict string) (w : World) (commands : list string)
  : cp_effect :=
  match rev commands with
  | dest :: src :: _ =>
      match dict_get store src with
      | Some content => {| cp_written := Some content; cp_result := Ok [] |}
      | None => {| cp_written := None;
                   cp_result := Raise (RuntimeError "s5cmd: no object found") |}
      end
  | _ => {| cp_written := None; cp_result := Raise (RuntimeError "s5cmd: usage") |}
  end.

(** The same for the command of [Partial.aws_cp], whose source is its fourth
    word. *)
Definition s5cmd_of_store4 (store : pydict string) (w : World) (commands : list string)
  : cp_effect :=
  match commands with
  | _ :: _ :: _ :: src :: _ =>
      match dict_get store src with
      | Some content => {| cp_written := Some content; cp_result := Ok [] |}
      | None => {| cp_written := None;
                   cp_result := Raise (RuntimeError "s5cmd: no object found") |}
      end
  | _ => {| cp_written := None; cp_result := Raise (RuntimeError "s5cmd: usage") |}
  end.

(** A machine without the [s5cmd] tool: every command fails to start. *)
Definition s5cmd_missing (w : World) (commands : list string) : cp_effect :=
  {| cp_written := None;
     cp_result := Raise (FileNotFoundError "[Errno 2] No such file or directory: 's5cmd'") |}.

Definition env_of (tool : World -> list string -> cp_effect) : Externals :=
  {| to_compact := to_compact_spec; dt_parse := dt_parse_iso; s5cmd := tool |}.

Definition empty_world : World := {| fs := ∅; calls := [] |}.

(** ** The matching rule in the words of the spec

    The record's variable abbreviation equals the criteria's, its level
    descriptor starts with the string form of the criteria's level (any
    level when none is given), its time-range descriptor starts with the
    string form of the criteria's time-range length (any when none is
    given), and its statistical-processing column is empty. *)

Definition str_of_pyval (v : pyval) : string :=
  match v with
  | PyInt z => str_of_Z z
  | PyStr s => s
  end.

Definition spec_matches (criteria : pydict pyval) (index_line : string) : bool :=
  match firstn 7 (split colon index_line) with
  | [num; starting_byte; date; var_name; level; time_length; math_params] =>
      match dict_get criteria "abbrevName" with
      | Some (PyStr abbrev) => String.eqb abbrev var_name
      | _ => false
      end
      && String.prefix (match dict_get criteria "level" with
                        | Some v => str_of_pyval v
                        | None => EmptyString
                        end) level
      && String.prefix (match dict_get criteria "lengthOfTimeRange" with
                        | Some v => str_of_pyval v
                        | None => EmptyString
                        end) time_length
      && String.eqb math_params EmptyString
  | _ => false
  end.

(** A criterion that the code can hand to [startswith]: absent or a [str]. *)
Definition str_criterion (criteria : pydict pyval) (key : string) : bool :=
  match dict_get criteria key with
  | Some (PyInt _) => false
  | _ => true
  end.

(** ** Example inputs *)

Definition issue_20240905T12 : datetime :=
  {| year := 2024; month := 9; day := 5; hour := 12; minute := 0; second := 0 |}.

Definition valid_20240905T13 : datetime :=
  {| year := 2024; month := 9; day := 5; hour := 13; minute := 0; second := 0 |}.

Definition line_TMP_2m : string :=
  "32:3866677:d=2024090523:TMP:2 m above ground:2 hour fcst:".

Definition line_TMP_10m : string :=
  "33:3900000:d=2024090523:TMP:10 m above ground:2 hour fcst:".

Definition line_VIS : string :=
  "2:345:d=2024090512:VIS:surface:anl:".

(** A visibility record followed by another record; the eighth column keeps
    the line terminator out of the seventh. *)
Definition index_VIS_first : string :=
  "1:0:d=2024090512:VIS:surface:anl::" +:+ String nl
  "2:500:d=2024090512:TMP:2 m above ground:anl::" +:+ String nl EmptyString.

(** A visibility record on the last line. *)
Definition index_VIS_last : string :=
  "1:0:d=2024090512:APCP:surface:0-1 hour acc fcst::" +:+ String nl line_VIS.

(** A line of fewer than 7 columns before the visibility record. *)
Definition index_short_then_VIS : string :=
  "GRIB index" +:+ String nl line_VIS.

Definition index_TMP_10m_only : string := line_TMP_10m.

Definition idx_uri_co : string :=
  "s3://noaa-nbm-grib2-pds/blend.20240905/12/core/blend.t12z.core.f001.co.grib2.idx".
Definition data_uri_co : string :=
  "s3://noaa-nbm-grib2-pds/blend.20240905/12/core/blend.t12z.core.f001.co.grib2".
Definition idx_uri_plain : string :=
  "s3://noaa-nbm-grib2-pds/blend.20240905/12/core/blend.t12z.core.f001.grib2.idx".
Definition data_uri_plain : string :=
  "s3://noaa-nbm-grib2-pds/blend.20240905/12/core/blend.t12z.core.f001.grib2".

Definition store_of (index_text : string) : pydict string :=
  [ (idx_uri_co, index_text); (data_uri_co, "GRIB....7777");
    (idx_uri_plain, index_text); (data_uri_plain, "GRIB....7777") ].

Definition world_with (path content : string) : World :=
  {| fs := {[ path := File content ]}; calls := [] |}.

(** The reader that [Reader('NBM', 'CO')] builds in each script. *)
Definition lab_reader_CO : Reader :=
  {| _product_name := "NBM";
     _product := Lab.NBM;
     _path_builder :=
       {| PathBuilder.basedir := basedir Lab.NBM;
          PathBuilder.subdir := subdir Lab.NBM;
          PathBuilder.file_base := file_base Lab.NBM;
          PathBuilder.file_ext := ".co.grib2" |};
     _file_ext := ".co.grib2";
     _region := "co" |}.

Definition partial_reader_CO : Reader :=
  {| _product_name := "NBM";
     _product := Partial.NBM;
     _path_builder :=
       {| PathBuilder.basedir := basedir Partial.NBM;
          PathBuilder.subdir := subdir Partial.NBM;
          PathBuilder.file_base := file_base Partial.NBM;
          PathBuilder.file_ext := ".grib2" |};
     _file_ext := ".CO.grib2";
     _region := "CO" |}.

(** ** Intermediate states

    The reader while [_download_index_file] builds the index paths: both
    extensions carry the [.idx] suffix. *)
Definition idx_reader (r : Reader) : Reader :=
  set__path_builder_file_ext (PathBuilder.file_ext (_path_builder r) +:+ ".idx")
    (set__file_ext (_file_ext r +:+ ".idx") r).

(** The stem of a local file name. *)
Definition local_stem `{Externals} (r : Reader) (issue valid : datetime)
    (field : option string) : string :=
  let stem := _product_name r +:+ "_" +:+ to_compact issue
              +:+ "_" +:+ to_compact valid in
  if truthy_str field then stem +:+ "_" +:+ default EmptyString field else stem.

(** ** [src/ThreadTimer.py]

    The timer reads [time.perf_counter_ns()] in [start] and [stop]; the
    reading is an argument of the method here. The status is one of the
    three strings the class assigns. *)

Module ThreadTimer.

Inductive status : Type :=
| NOT_STARTED
| STARTED
| STOPPED.

Definition status_str (st : status) : string :=
  match st with
  | NOT_STARTED => "NOT_STARTED"
  | STARTED => "STARTED"
  | STOPPED => "STOPPED"
  end.

Definition status_eqb (a b : status) : bool :=
  match a, b with
  | NOT_STARTED, NOT_STARTED => true
  | STARTED, STARTED => true
  | STOPPED, STOPPED => true
  | _, _ => false
  end.

Record t : Type := {
  _name : option string;
  _start : Z;
  _end : Z;
  _status : status
}.

Definition start (now : Z) : M t unit :=
  st <- gets _status ;;
  if status_eqb st STARTED then
    raise (RuntimeError "Cannot call start() twice on same ThreadTimer.")
  else
    u <- modify (fun tm => {| _name := _name tm; _start := now;
                              _end := _end tm; _status := _status tm |}) ;;
    modify (fun tm => {| _name := _name tm; _start := _start tm;
                         _end := _end tm; _status := STARTED |}).

Definition stop (now : Z) : M t Z :=
  st <- gets _status ;;
  if status_eqb st STOPPED then
    raise (RuntimeError "Cannot call stop() twice on the same ThreadTimer.")
  else
    u1 <- modify (fun tm => {| _name := _name tm; _start := _start tm;
                               _end := now; _status := _status tm |}) ;;
    u2 <- modify (fun tm => {| _name := _name tm; _start := _start tm;
                               _end := _end tm; _status := STOPPED |}) ;;
    tm <- gets (fun tm => tm) ;;
    ret (_end tm - _start tm).

(** [ThreadTimer(name, auto_start)]; [now] is read only when the timer
    starts at once. *)
Definition init (name : option string) (auto_start : bool) (now : Z) : result t :=
  let tm := {| _name := name; _start := 0; _end := 0; _status := NOT_STARTED |} in
  if auto_start then
    match start now tm with
    | (Ok _, tm') => Ok tm'
    | (Raise e, _) => Raise e
    end
  else Ok tm.

(** The number that [get_result] prints: an [int], or the [float] quotient
    of an [int] by a power of ten. *)
Inductive number : Type :=
| IntVal (n : Z)
| Quotient (n : Z) (divisor : Z).

(** Python's fixed-point rendering [f'{x:0.{precision}f}'] of such a number
    is floating-point arithmetic of the interpreter: it is taken as given. *)
Class FloatFormat : Type := {
  format_f : number -> Z -> result string
}.

Definition get_result `{FloatFormat} (sep time_units : string) (precision : Z)
  : M t string :=
  st <- gets _status ;;
  if negb (status_eqb st STOPPED) then
    raise (RuntimeError
             ("ThreadTimer must be stopped before getting result. Status: "
              +:+ status_str st))
  else
    tm <- gets (fun tm => tm) ;;
    let elapsed_ns := _end tm - _start tm in
    let elapsed_in_units :=
      if str_in time_units ["s"; "seconds"] then Quotient elapsed_ns 1000000000
      else if str_in time_units ["ms"; "milliseconds"] then Quotient elapsed_ns 1000000
      else if str_in time_units ["ns"; "nanoseconds"] then IntVal elapsed_ns
      else IntVal (-1) in
    rendered <- lift (format_f elapsed_in_units precision) ;;
    ret (join_with sep [rendered +:+ " " +:+ time_units;
                        if truthy_str (_name tm) then default EmptyString (_name tm)
                        else EmptyString]).

(** A call of [start] or [stop] with the clock reading it gets. *)
Inductive call : Type :=
| Start (now : Z)
| Stop (now : Z).

Definition reading (c : call) : Z :=
  match c with
  | Start now => now
  | Stop now => now
  end.

(** The timer after one call; a call that raises leaves it as it was. *)
Definition after (c : call) (tm : t) : t :=
  match c with
  | Start now => snd (start now tm)
  | Stop now => snd (stop now tm)
  end.

(** The timer after a sequence of calls by a caller that catches the
    exceptions. *)
Definition after_all (cs : list call) (tm : t) : t :=
  fold_left (fun acc c => after c acc) cs tm.

(** Clock readings as a monotonic clock gives them over a sequence of calls:
    none below [from], none below an earlier one. *)
Fixpoint monotonic_from (from : Z) (cs : list call) : Prop :=
  match cs with
  | [] => True
  | c :: cs' => from <= reading c /\ monotonic_from (reading c) cs'
  end.

End ThreadTimer.

(** An exact fixed-point rendering, for examples: the quotient rounded half
    up to [precision] decimals. The interpreter's floats can differ from it
    in the last digit. *)
Definition fixed_point (x : ThreadTimer.number) (precision : Z) : result string :=
  if precision <? 0 then Raise (ValueError "Format specifier missing precision")
  else
    let p := Z.to_nat precision in
    let '(n, d) := match x with
                   | ThreadTimer.IntVal n => (n, 1)
                   | ThreadTimer.Quotient n d => (n, d)
                   end in
    let scaled := (2 * Z.abs n * 10 ^ precision + d) / (2 * d) in
    let whole := scaled / 10 ^ precision in
    let frac := scaled mod 10 ^ precision in
    Ok ((if n <? 0 then "-" else EmptyString)
        +:+ str_of_Z whole
        +:+ (if (p =? 0)%nat then EmptyString else "." +:+ zero_pad p frac)).

Definition exact_format : ThreadTimer.FloatFormat :=
  {| ThreadTimer.format_f := fixed_point |}.

(** ** [aws_du] of [src/download_utils.py] *)

(** White space that [int] strips, among the ASCII characters. *)
Definition is_space (c : ascii) : bool :=
  let n := nat_of_ascii c in
  (((9 <=? n) && (n <=? 13)) || ((28 <=? n) && (n <=? 32)))%nat.

Fixpoint lstrip (s : string) : string :=
  match s with
  | EmptyString => EmptyString
  | String c s' => if is_space c then lstrip s' else s
  end.

Fixpoint rstrip (s : string) : string :=
  match s with
  | EmptyString => EmptyString
  | String c s' =>
      match rstrip s' with
      | EmptyString => if is_space c then EmptyString else String c EmptyString
      | r => String c r
      end
  end.

(** The digits of a decimal literal, single underscores allowed between
    digits; [after_digit] tells whether the previous character was a digit. *)
Fixpoint int_digits (acc : Z) (after_digit : bool) (s : string) : option Z :=
  match s with
  | EmptyString => if after_digit then Some acc else None
  | String c s' =>
      match digit_of_ascii c with
      | Some d => int_digits (10 * acc + Z.of_nat d) true s'
      | None =>
          if Ascii.eqb c (ascii_of_nat 95) && after_digit
          then int_digits acc false s'
          else None
      end
  end.

(** [int(s)] for a [str] of ASCII characters, base 10. *)
Definition py_int (s : string) : result Z :=
  let body := rstrip (lstrip s) in
  let parsed :=
    match body with
    | String sign rest =>
        if Ascii.eqb sign (ascii_of_nat 45) then option_map Z.opp (int_digits 0 false rest)
        else if Ascii.eqb sign (ascii_of_nat 43) then int_digits 0 false rest
        else int_digits 0 false body
    | EmptyString => None
    end in
  match parsed with
  | Some z => Ok z
  | None => Raise (ValueError ("invalid literal for int() with base 10: " +:+ repr_str s))
  end.

(** [exec_cmd(commands)] for a command that writes no local file
    ([s5cmd du]): the call is recorded and its output or exception handed
    back. *)
Definition exec_cmd_readonly `{Externals} (commands : list string)
  : M World (list string) :=
  fun w => (cp_result (s5cmd w commands),
            {| fs := fs w; calls := calls w ++ [commands] |}).

(** [exec_cmd(['rm', path])]: the call is recorded; when the command
    succeeds the path is gone, when it raises nothing was removed. *)
Definition exec_cmd_rm `{Externals} (path : string) : M World (list string) :=
  fun w =>
    let outcome := cp_result (s5cmd w ["rm"; path]) in
    (outcome,
     {| fs := match outcome with
              | Ok _ => delete path (fs w)
              | Raise _ => fs w
              end;
        calls := calls w ++ [["rm"; path]] |}).

Definition aws_du_commands (path : string) (exclude : option string) (humanize : bool)
  : list string :=
  (["s5cmd"; "--no-sign-request"; "du"]
   ++ (if truthy_str exclude then ["--exclude"; default EmptyString exclude] else [])
   ++ (if humanize then ["--humanize"] else [])
   ++ [path])%list.

Definition aws_du `{Externals} (path : string) (exclude : option string)
    (humanize : bool) : M World pyval :=
  let commands := aws_du_commands path exclude humanize in
  except_FileNotFoundError
    (result <- exec_cmd_readonly commands ;;
     first_line <- lift (py_index result 0) ;;
     file_size_str <- lift (py_index (split (ascii_of_nat 32) first_line) 0) ;;
     if humanize then ret (PyStr file_size_str)
     else n <- lift (py_int file_size_str) ;; ret (PyInt n))
    (ret (PyInt (-1))).

(** ** The benchmark functions of [grib_downloading_lab.py] *)

Module Benchmark.
Section WithExternals.
Context `{Externals} `{ThreadTimer.FloatFormat}.

(** [now_start] and [now_stop] are the clock readings of the timer. *)
Definition _benchmark_aws_cp (src_path dest_path : string) (file_size : pyval)
    (s5_args : list Z) (now_start now_stop : Z) : M World string :=
  present <- gets (fun w => exists_path w dest_path) ;;
  u <- (if present then removed <- exec_cmd_rm dest_path ;; ret tt else ret tt) ;;
  match s5_args with
  | [concurrency; chunk_size] =>
      timer <- lift (ThreadTimer.init
                       (Some ("downloaded " +:+ str_of_pyval file_size
                              +:+ "B, concurrency: " +:+ str_of_Z concurrency
                              +:+ ", " +:+ "part_size: " +:+ str_of_Z chunk_size +:+ " MB"))
                       true now_start) ;;
      copied <- download_utils.aws_cp src_path dest_path None
                  (Some concurrency) (Some chunk_size) true ;;
      match ThreadTimer.stop now_stop timer with
      | (Raise e, _) => raise e
      | (Ok elapsed, timer') =>
          report <- lift (fst (ThreadTimer.get_result ": " "ms" 2 timer')) ;;
          ret dest_path
      end
  | _ =>
      raise (ValueError
               (if (length s5_args <? 2)%nat
                then "not enough values to unpack (expected 2, got "
                     +:+ str_of_nat (length s5_args) +:+ ")"
                else "too many values to unpack (expected 2)"))
  end.

Definition _build_file_paths (dest_dir : string) (issue valid : datetime)
    (humanize : bool) : M State (string * string * pyval) :=
  name <- on_self (Lab.get_local_filename issue valid None None) ;;
  let dest_path := path_join dest_dir name in
  src_path <- on_self (Lab.get_source_path issue valid None) ;;
  file_size <- on_os (aws_du src_path (Some "*.idx") humanize) ;;
  ret (src_path, dest_path, file_size).

Fixpoint _delete_files (filepaths : list string) : M World unit :=
  match filepaths with
  | [] => ret tt
  | file :: rest => removed <- exec_cmd_rm file ;; _delete_files rest
  end.

End WithExternals.
End Benchmark.

(** ** What a run adds to the world *)

(** A copy command without options: no byte range, no tuning. *)
Definition is_plain_copy (command : list string) : Prop :=
  exists src dest, command = ["s5cmd"; "--no-sign-request"; "cp"; src; dest].

(** [w'] comes from [w] by at most [k] plain copy commands, and every path
    of [w] is still there with what it held. *)
Definition grows_by (k : nat) (w w' : World) : Prop :=
  (exists added, calls w' = (calls w ++ added)%list
                 /\ (length added <= k)%nat
                 /\ Forall is_plain_copy added)
  /\ (forall p n, fs w !! p = Some n -> fs w' !! p = Some n).

(** A method that changes the world that way, whatever it returns. *)
Definition adds_copies {A : Type} (k : nat) (m : M State A) : Prop :=
  forall s, grows_by k (os s) (os (snd (m s))).


(** Unfolds the monad operations of a method body. *)
Ltac run_monad :=
  unfold bind, ret, raise, lift, gets, modify, on_self, on_os,
         try_finally, except_FileNotFoundError, exec_cmd;
  cbn beta iota zeta.

(** * Properties *)

(** ** The constructors build the example readers *)

Lemma lab_init_CO : Lab.init "NBM" "CO" = Ok lab_reader_CO.
Proof. vm_compute. reflexivity. Qed.

Lemma partial_init_CO : Partial.init "NBM" "CO" = Ok partial_reader_CO.
Proof. vm_compute. reflexivity. Qed.

(** ** Columns of a line *)

Lemma split_nonempty (sep : ascii) (s : string) : split sep s <> [].
Proof.
  destruct s as [|c s]; simpl; [discriminate|].
  destruct (Ascii.eqb c sep); [discriminate|].
  destruct (split sep s); discriminate.
Qed.

Lemma split_app (sep : ascii) (a b : string) :
  split sep (a +:+ String sep b) = (split sep a ++ split sep b)%list.
Proof.
  induction a as [|c a IH]; simpl.
  - rewrite Ascii.eqb_refl. reflexivity.
  - destruct (Ascii.eqb c sep); [now rewrite IH|].
    rewrite IH. destruct (split sep a) as [|w ws] eqn:E; [|reflexivity].
    now destruct (split_nonempty sep a).
Qed.

Lemma firstn_app_enough {A : Type} (n : nat) (l1 l2 : list A) :
  (n <= length l1)%nat -> firstn n (l1 ++ l2) = firstn n l1.
Proof.
  intros Hn. rewrite firstn_app.
  replace (n - length l1)%nat with 0%nat by lia.
  simpl. apply app_nil_r.
Qed.

(** Columns after the seventh play no part in the match. *)
Lemma extra_columns_ignored (p : Product) (line extra field : string) :
  (7 <= length (split colon line))%nat ->
  _is_line_matching_field p (line +:+ String colon extra) field
  = _is_line_matching_field p line field.
Proof.
  intros H7. unfold _is_line_matching_field.
  rewrite split_app, firstn_app_enough by exact H7. reflexivity.
Qed.

(** A line of fewer than seven columns cannot be unpacked. *)
Lemma short_line_raises (p : Product) (line field : string) :
  dict_in field (field_lookup p) = true ->
  (length (split colon line) < 7)%nat ->
  _is_line_matching_field p line field
  = Raise (ValueError ("not enough values to unpack (expected 7, got "
                       +:+ str_of_nat (length (split colon line)) +:+ ")")).
Proof.
  intros Hin Hlen. unfold _is_line_matching_field, dict_item, dict_in in *.
  destruct (dict_get (field_lookup p) field) as [args|]; [|discriminate].
  cbn [bindR].
  rewrite firstn_all2 by lia.
  destruct (split colon line) as [|c1 [|c2 [|c3 [|c4 [|c5 [|c6 [|c7 cs]]]]]]];
    try reflexivity.
  simpl in Hlen. lia.
Qed.

(** ** Field matching *)

(** When neither criterion of the field is an integer, the code computes
    the rule of the spec. *)
Lemma matching_agrees_on_str_criteria (p : Product) (line field : string)
    (criteria : pydict pyval) :
  dict_get (field_lookup p) field = Some criteria ->
  str_criterion criteria "level" = true ->
  str_criterion criteria "lengthOfTimeRange" = true ->
  (7 <= length (split colon line))%nat ->
  is_Some (dict_get criteria "abbrevName") ->
  _is_line_matching_field p line field = Ok (spec_matches criteria line).
Proof.
  intros Hf Hl Ht H7 [abbrev Ha].
  unfold _is_line_matching_field, spec_matches, dict_item, str_criterion in *.
  rewrite Hf. cbn [bindR].
  assert (Hlen : length (firstn 7 (split colon line)) = 7%nat)
    by (rewrite length_firstn; lia).
  destruct (firstn 7 (split colon line))
    as [|c1 [|c2 [|c3 [|c4 [|c5 [|c6 [|c7 [|c8 cs]]]]]]]]; try discriminate Hlen.
  rewrite Ha. cbn [bindR].
  destruct abbrev as [z|a]; cbn [py_eq_str]; [reflexivity|].
  destruct (String.eqb a c4); [|reflexivity].
  destruct (dict_get criteria "level") as [[?|lv]|]; try discriminate Hl;
    destruct (dict_get criteria "lengthOfTimeRange") as [[?|tl]|]; try discriminate Ht;
    cbn [py_startswith bindR str_of_pyval andb];
    repeat match goal with
           | |- context [String.prefix ?a ?b] => destruct (String.prefix a b)
           end; reflexivity.
Qed.

(** A record of another variable never matches, whatever the criteria. *)
Lemma other_variable_no_match (p : Product) (line field : string)
    (criteria : pydict pyval) (abbrev : string) :
  dict_get (field_lookup p) field = Some criteria ->
  dict_get criteria "abbrevName" = Some (PyStr abbrev) ->
  nth_error (split colon line) 3 <> Some abbrev ->
  (7 <= length (split colon line))%nat ->
  _is_line_matching_field p line field = Ok false.
Proof.
  intros Hf Ha Hv H7. unfold _is_line_matching_field, dict_item. rewrite Hf.
  cbn [bindR].
  assert (Hlen : length (firstn 7 (split colon line)) = 7%nat)
    by (rewrite length_firstn; lia).
  assert (H3 : nth_error (firstn 7 (split colon line)) 3 = nth_error (split colon line) 3)
    by (apply nth_error_firstn; lia).
  destruct (firstn 7 (split colon line))
    as [|c1 [|c2 [|c3 [|c4 [|c5 [|c6 [|c7 [|c8 cs]]]]]]]]; try discriminate Hlen.
  rewrite Ha. cbn [bindR py_eq_str].
  destruct (String.eqb_spec abbrev c4) as [->|]; [|reflexivity].
  change (Some c4 = nth_error (split colon line) 3) in H3. congruence.
Qed.

(** A record of the requested variable makes the code hand an integer level
    to [startswith]: the call raises instead of answering. *)
Lemma integer_level_raises (p : Product) (line field : string)
    (criteria : pydict pyval) (abbrev : string) (z : Z) :
  dict_get (field_lookup p) field = Some criteria ->
  dict_get criteria "abbrevName" = Some (PyStr abbrev) ->
  dict_get criteria "level" = Some (PyInt z) ->
  nth_error (split colon line) 3 = Some abbrev ->
  (7 <= length (split colon line))%nat ->
  _is_line_matching_field p line field
  = Raise (TypeError "startswith first arg must be str or a tuple of str, not int").
Proof.
  intros Hf Ha Hl Hv H7. unfold _is_line_matching_field, dict_item. rewrite Hf.
  cbn [bindR].
  assert (Hlen : length (firstn 7 (split colon line)) = 7%nat)
    by (rewrite length_firstn; lia).
  assert (H3 : nth_error (firstn 7 (split colon line)) 3 = Some abbrev)
    by (rewrite nth_error_firstn by lia; exact Hv).
  destruct (firstn 7 (split colon line))
    as [|c1 [|c2 [|c3 [|c4 [|c5 [|c6 [|c7 [|c8 cs]]]]]]]]; try discriminate Hlen.
  simpl in H3. injection H3 as ->.
  rewrite Ha, Hl. cbn [bindR py_eq_str]. rewrite String.eqb_refl. reflexivity.
Qed.

(** C1. On the catalog field [TEMP] (level 2, an integer) and a record of
    variable [TMP] at [2 m above ground] with an empty statistical-processing
    column, the rule of the spec answers true, and [_is_line_matching_field]
    raises [TypeError] instead of returning true: the integer level reaches
    [str.startswith] without being turned into a string. *)
Theorem C1_matching_raises_on_integer_level :
  spec_matches [("abbrevName", PyStr "TMP"); ("level", PyInt 2);
                ("productDefinitionTemplateNumber", PyInt 0)] line_TMP_2m = true
  /\ dict_get (field_lookup Lab.NBM) "TEMP"
     = Some [("abbrevName", PyStr "TMP"); ("level", PyInt 2);
             ("productDefinitionTemplateNumber", PyInt 0)]
  /\ _is_line_matching_field Lab.NBM line_TMP_2m "TEMP"
     = Raise (TypeError "startswith first arg must be str or a tuple of str, not int")
  /\ _is_line_matching_field Partial.NBM line_TMP_2m "TEMP"
     = Raise (TypeError "startswith first arg must be str or a tuple of str, not int").
Proof. repeat split; vm_compute; reflexivity. Qed.

(** ** The scan of the index lines *)

Lemma match_needs_seven_columns (p : Product) (line field : string) (b : bool) :
  _is_line_matching_field p line field = Ok b ->
  (7 <= length (split colon line))%nat.
Proof.
  unfold _is_line_matching_field, dict_item.
  destruct (dict_get (field_lookup p) field); [|discriminate].
  cbn [bindR].
  destruct (firstn 7 (split colon line))
    as [|c1 [|c2 [|c3 [|c4 [|c5 [|c6 [|c7 [|c8 cs]]]]]]]] eqn:E;
    try discriminate.
  intros _. apply (f_equal (@length string)) in E.
  rewrite length_firstn in E. cbn [length] in E. lia.
Qed.

Lemma second_column_exists (line : string) :
  (7 <= length (split colon line))%nat ->
  exists sb, py_index (split colon line) 1 = Ok sb.
Proof.
  intros H. unfold py_index.
  destruct (split colon line) as [|c1 [|c2 cs]]; simpl in *; try lia.
  now exists c2.
Qed.

(** Lines that do not match are passed over, in file order. *)
Lemma loop_skip (p : Product) (field : string) (file_lines pre rest : list string) :
  Forall (fun l => _is_line_matching_field p l field = Ok false) pre ->
  forall n,
    byterange_loop p field file_lines n (pre ++ rest)
    = byterange_loop p field file_lines (n + length pre) rest.
Proof.
  induction 1 as [|l pre Hl Hpre IH]; intros n; simpl.
  - now rewrite Nat.add_0_r.
  - rewrite Hl. cbn [bindR]. rewrite IH. f_equal. lia.
Qed.

(** A match on the last line: the result is the tuple of the CHARACTERS of
    the starting offset (what [tuple] makes of a string). *)
Lemma match_on_last_line (p : Product) (field : string) (pre : list string)
    (line sb : string) :
  Forall (fun l => _is_line_matching_field p l field = Ok false) pre ->
  _is_line_matching_field p line field = Ok true ->
  py_index (split colon line) 1 = Ok sb ->
  byterange_of_lines p field (pre ++ [line]) = Ok (Some (chars sb)).
Proof.
  intros Hpre Hm Hsb. unfold byterange_of_lines.
  rewrite loop_skip by exact Hpre. simpl.
  rewrite Hm. cbn [bindR]. rewrite Hsb. cbn [bindR].
  rewrite length_app. simpl.
  match goal with
  | |- context [(?a <? ?b)%nat] => destruct (Nat.ltb_spec a b) as [_|]; [|lia]
  end.
  reflexivity.
Qed.

(** A match before the last line: the two-argument call of [tuple] raises
    (or, when the next line has no second column, the index does). *)
Lemma match_before_last_line (p : Product) (field : string) (pre post : list string)
    (line next : string) :
  Forall (fun l => _is_line_matching_field p l field = Ok false) pre ->
  _is_line_matching_field p line field = Ok true ->
  byterange_of_lines p field (pre ++ line :: next :: post)
  = match nth_error (split colon next) 1 with
    | Some _ => Raise (TypeError "tuple expected at most 1 argument, got 2")
    | None => Raise (IndexError "list index out of range")
    end.
Proof.
  intros Hpre Hm. unfold byterange_of_lines.
  rewrite loop_skip by exact Hpre. simpl.
  rewrite Hm. cbn [bindR].
  destruct (second_column_exists line (match_needs_seven_columns _ _ _ _ Hm)) as [sb Hsb].
  rewrite Hsb. cbn [bindR].
  rewrite length_app. simpl.
  match goal with
  | |- context [(?a <? ?b)%nat] => destruct (Nat.ltb_spec a b) as [|_]; [lia|]
  end.
  unfold py_index at 1.
  replace (nth_error (pre ++ line :: next :: post) (S (length pre))) with (Some next).
  - cbn [bindR]. unfold py_index.
    destruct (split colon next) as [|c1 [|c2 cs]]; reflexivity.
  - symmetry. rewrite nth_error_app2 by lia.
    replace (S (length pre) - length pre)%nat with 1%nat by lia. reflexivity.
Qed.

(** A short line reached before any match stops the scan with an error,
    whatever follows it. *)
Lemma short_line_stops_scan (p : Product) (field : string) (pre rest : list string)
    (short : string) :
  dict_in field (field_lookup p) = true ->
  (length (split colon short) < 7)%nat ->
  Forall (fun l => _is_line_matching_field p l field = Ok false) pre ->
  byterange_of_lines p field (pre ++ short :: rest)
  = Raise (ValueError ("not enough values to unpack (expected 7, got "
                       +:+ str_of_nat (length (split colon short)) +:+ ")")).
Proof.
  intros Hin Hlen Hpre. unfold byterange_of_lines.
  rewrite loop_skip by exact Hpre. simpl.
  now rewrite short_line_raises.
Qed.

(** C2. Where the visibility record is the first of two records, the byte
    range should be (0, 500); [_get_byterange_from_index] raises [TypeError]
    at [tuple(starting_byte, ending_byte)]. Where it is the last record, at
    offset 345, the result is the tuple of the characters '3', '4', '5', not
    the integer start 345 with an open end. *)
Theorem C2_byterange_raises_or_splits_digits :
  fst (_get_byterange_from_index (Some "/data/f.idx") "VISIBILITY"
         {| self := lab_reader_CO; os := world_with "/data/f.idx" index_VIS_first |})
  = Raise (TypeError "tuple expected at most 1 argument, got 2")
  /\ fst (_get_byterange_from_index (Some "/data/f.idx") "VISIBILITY"
            {| self := lab_reader_CO; os := world_with "/data/f.idx" index_VIS_last |})
     = Ok (Some ["3"; "4"; "5"]).
Proof. split; vm_compute; reflexivity. Qed.

(** C3, against the claim: a line of fewer than 7 columns is not skipped.
    With such a line before a well-formed visibility record, the operation
    raises [ValueError] and the record is not found. *)
Lemma C3_short_line_not_skipped :
  spec_matches [("abbrevName", PyStr "VIS")] line_VIS = true
  /\ readlines index_short_then_VIS = ["GRIB index" +:+ String nl EmptyString; line_VIS]
  /\ fst (_get_byterange_from_index (Some "/data/f.idx") "VISIBILITY"
            {| self := lab_reader_CO;
               os := world_with "/data/f.idx" index_short_then_VIS |})
     = Raise (ValueError "not enough values to unpack (expected 7, got 1)").
Proof. repeat split; vm_compute; reflexivity. Qed.

(** C3, as the code has it: lines are examined in file order and split on
    the colon, columns after the seventh are ignored, and a line of fewer
    than 7 columns that is reached before a match makes the operation raise
    [ValueError], whatever follows it. *)
Theorem C3_short_line_raises (s : State) (path text field short : string)
    (pre rest : list string) :
  fs (os s) !! path = Some (File text) ->
  readlines text = (pre ++ short :: rest)%list ->
  dict_in field (field_lookup (_product (self s))) = true ->
  (length (split colon short) < 7)%nat ->
  Forall (fun l => _is_line_matching_field (_product (self s)) l field = Ok false) pre ->
  _get_byterange_from_index (Some path) field s
  = (Raise (ValueError ("not enough values to unpack (expected 7, got "
                        +:+ str_of_nat (length (split colon short)) +:+ ")")), s)
  /\ forall line extra,
       (7 <= length (split colon line))%nat ->
       _is_line_matching_field (_product (self s)) (line +:+ String colon extra) field
       = _is_line_matching_field (_product (self s)) line field.
Proof.
  intros Hfile Hlines Hin Hshort Hpre. split.
  - unfold _get_byterange_from_index, open_readlines. rewrite Hfile.
    cbn [bindR]. rewrite Hlines.
    now rewrite short_line_stops_scan.
  - intros line extra H7. now apply extra_columns_ignored.
Qed.

Lemma C3_short_line_raises_witness :
  _get_byterange_from_index (Some "/data/f.idx") "VISIBILITY"
    {| self := lab_reader_CO; os := world_with "/data/f.idx" index_short_then_VIS |}
  = (Raise (ValueError "not enough values to unpack (expected 7, got 1)"),
     {| self := lab_reader_CO; os := world_with "/data/f.idx" index_short_then_VIS |}).
Proof.
  refine (proj1 (C3_short_line_raises
                   {| self := lab_reader_CO;
                      os := world_with "/data/f.idx" index_short_then_VIS |}
                   "/data/f.idx" index_short_then_VIS "VISIBILITY"
                   ("GRIB index" +:+ String nl EmptyString) [] [line_VIS]
                   _ _ _ _ _)).
  - vm_compute. reflexivity.
  - vm_compute. reflexivity.
  - vm_compute. reflexivity.
  - vm_compute. lia.
  - constructor.
Defined.

(** ** Failure of the copy *)

(** C4. On a machine without the [s5cmd] tool the failed copy is not
    surfaced: [_download_file] drops the [False] of [aws_cp] and returns the
    destination path although nothing was written there, and with the index
    file already present [download_field] reports the destination path as
    downloaded. *)
Lemma C4_failed_copy_reported_as_path :
  (fst (@Lab._download_file (env_of s5cmd_missing) data_uri_co "/data/f.grib2"
          (Some ["3"; "4"; "5"]) empty_world) = Ok "/data/f.grib2"
   /\ exists_path (snd (@Lab._download_file (env_of s5cmd_missing) data_uri_co
                          "/data/f.grib2" (Some ["3"; "4"; "5"]) empty_world))
                  "/data/f.grib2" = false)
  /\ (let s := {| self := lab_reader_CO;
                  os := world_with "/data/NBM_20240905T120000Z_20240905T130000Z.co.grib2.idx"
                                   index_VIS_last |} in
      let run := @Lab.download_field (env_of s5cmd_missing)
                   "2024-09-05T12:00:00Z" "2024-09-05T13:00:00Z" "VISIBILITY" "/data" s in
      fst run = Ok "/data/NBM_20240905T120000Z_20240905T130000Z_VISIBILITY.co.grib2"
      /\ exists_path (os (snd run))
           "/data/NBM_20240905T120000Z_20240905T130000Z_VISIBILITY.co.grib2" = false).
Proof. repeat split; vm_compute; reflexivity. Qed.

(** The outcomes of a failed copy: when the command cannot be started
    ([FileNotFoundError]) [aws_cp] catches the error and returns [False],
    with nothing attached; any other exception of the collaborator passes
    unchanged through [aws_cp] and [_download_file]. *)
Lemma copy_failure_outcomes `{Externals} (path dest : string)
    (byte_range : option (list string)) (w : World) (e : exn) :
  cp_result (s5cmd w (download_utils.aws_cp_commands path dest None None false))
  = Raise e ->
  exists_path w dest = false ->
  match e with
  | FileNotFoundError _ =>
      fst (download_utils.aws_cp path dest byte_range None None false w) = Ok false
  | _ =>
      fst (download_utils.aws_cp path dest byte_range None None false w) = Raise e
      /\ fst (Lab._download_file path dest byte_range w) = Raise e
  end.
Proof.
  intros Hres Habsent.
  unfold Lab._download_file, download_utils.aws_cp. run_monad.
  rewrite Habsent, Hres.
  destruct e; cbn; auto.
Qed.

(** The swallowed failure, for every file system: when the destination is
    absent and the command cannot be started without having written
    anything, [_download_file] returns the destination path, which is still
    absent afterwards; the command was tried once. *)
Lemma lab_download_file_swallows_missing_tool `{Externals} (path dest msg : string)
    (byte_range : option (list string)) (w : World) :
  exists_path w dest = false ->
  s5cmd w (download_utils.aws_cp_commands path dest None None false)
  = {| cp_written := None; cp_result := Raise (FileNotFoundError msg) |} ->
  Lab._download_file path dest byte_range w
  = (Ok dest,
     {| fs := fs w;
        calls := (calls w
                  ++ [download_utils.aws_cp_commands path dest None None false])%list |})
  /\ exists_path (snd (Lab._download_file path dest byte_range w)) dest = false.
Proof.
  intros Habsent Htool.
  assert (Hrun : Lab._download_file path dest byte_range w
                 = (Ok dest,
                    {| fs := fs w;
                       calls := (calls w
                                 ++ [download_utils.aws_cp_commands path dest
                                       None None false])%list |})).
  { unfold Lab._download_file, download_utils.aws_cp. run_monad.
    now rewrite Habsent, Htool. }
  rewrite Hrun. split; [reflexivity|exact Habsent].
Qed.

(** ** Unknown fields *)

(** C7. For a field name that is not a key of the product's field table,
    [download_field] of either script raises [ValueError] with a message
    that names the field, and leaves the reader, the file system and the
    collaborator call log as they were: nothing was parsed, read or copied. *)
Theorem C7_unknown_field_fails_first `{Externals} (s : State)
    (issue_dt valid_dt field dest_dir : string) :
  dict_in field (field_lookup (_product (self s))) = false ->
  Lab.download_field issue_dt valid_dt field dest_dir s
  = (Raise (ValueError
              ("Field " +:+ field +:+ " not recognized for product "
               +:+ repr_product (_product (self s)) +:+ ". "
               +:+ "Supported fields: "
               +:+ repr_dict_keys (field_lookup (_product (self s))))), s)
  /\ Partial.download_field issue_dt valid_dt field dest_dir s
     = (Raise (ValueError
                 ("Field " +:+ field +:+ " not recognized for product "
                  +:+ repr_product (_product (self s)) +:+ ". "
                  +:+ "Supported fields: "
                  +:+ repr_dict_keys (field_lookup (_product (self s))))), s).
Proof.
  intros Hfield.
  unfold Lab.download_field, Partial.download_field. run_monad.
  rewrite Hfield. split; reflexivity.
Qed.

Lemma C7_unknown_field_fails_first_witness :
  let s := {| self := lab_reader_CO; os := empty_world |} in
  fst (@Lab.download_field (env_of s5cmd_missing)
         "2024-09-05T12:00:00Z" "2024-09-05T13:00:00Z" "SUNSHINE" "/data" s)
  = Raise (ValueError
             ("Field SUNSHINE not recognized for product "
              +:+ repr_product Lab.NBM +:+ ". "
              +:+ "Supported fields: " +:+ repr_dict_keys NBM_field_lookup))
  /\ snd (@Lab.download_field (env_of s5cmd_missing)
            "2024-09-05T12:00:00Z" "2024-09-05T13:00:00Z" "SUNSHINE" "/data" s) = s.
Proof.
  intros s.
  pose proof (@C7_unknown_field_fails_first (env_of s5cmd_missing) s
                "2024-09-05T12:00:00Z" "2024-09-05T13:00:00Z" "SUNSHINE" "/data"
                eq_refl) as [HLab _].
  rewrite HLab. split; reflexivity.
Defined.

(** ** Path computations and the state of the reader *)

Lemma set_region_supported (r : Reader) (rs : list string) (g : string) :
  regions (_product r) = Some rs ->
  str_in g rs = true ->
  Lab.set_region g r
  = (Ok tt,
     set__path_builder_file_ext ("." +:+ lower g +:+ file_ext (_product r))
       (set__file_ext ("." +:+ lower g +:+ file_ext (_product r))
          (set__region (lower g) r))).
Proof.
  intros Hrs Hin. unfold Lab.set_region. run_monad.
  rewrite Hrs, Hin. reflexivity.
Qed.

Lemma set_region_unsupported (r : Reader) (rs : list string) (g : string) :
  regions (_product r) = Some rs ->
  str_in g rs = false ->
  snd (Lab.set_region g r) = r /\ exists e, fst (Lab.set_region g r) = Raise e.
Proof.
  intros Hrs Hin. unfold Lab.set_region. run_monad.
  rewrite Hrs, Hin. cbn. eauto.
Qed.

(** Without a region argument the two computations read the reader and do
    not change it. *)
Lemma get_local_filename_no_region `{Externals} (issue valid : datetime)
    (field : option string) (r : Reader) :
  Lab.get_local_filename issue valid None field r
  = (let stem := _product_name r +:+ "_" +:+ to_compact issue
                 +:+ "_" +:+ to_compact valid in
     Ok ((if truthy_str field then stem +:+ "_" +:+ default EmptyString field else stem)
         +:+ _file_ext r), r).
Proof. reflexivity. Qed.

Lemma get_source_path_no_region (issue valid : datetime) (r : Reader) :
  Lab.get_source_path issue valid None r
  = (PathBuilder.build_path (_path_builder r) issue valid, r).
Proof. reflexivity. Qed.

(** C9, against the claim: a call that passes another region changes the
    reader. After [get_local_filename(issue, valid, region='HI')] on a reader
    of region [co], the stored region is [hi] and the extension [.hi.grib2],
    and the source path computed next, without a region argument, is the
    Hawaii one. *)
Lemma C9_region_argument_changes_reader :
  let r' := snd (@Lab.get_local_filename (env_of s5cmd_missing)
                   issue_20240905T12 valid_20240905T13 (Some "HI") None lab_reader_CO) in
  _region lab_reader_CO = "co" /\ _file_ext lab_reader_CO = ".co.grib2"
  /\ _region r' = "hi" /\ _file_ext r' = ".hi.grib2"
  /\ fst (Lab.get_source_path issue_20240905T12 valid_20240905T13 None lab_reader_CO)
     = Ok data_uri_co
  /\ fst (Lab.get_source_path issue_20240905T12 valid_20240905T13 None r')
     = Ok "s3://noaa-nbm-grib2-pds/blend.20240905/12/core/blend.t12z.core.f001.hi.grib2".
Proof. repeat split; vm_compute; reflexivity. Qed.

(** C9, as the code has it: a call without a region argument, or with the
    stored region, leaves the reader as it was; a call with another,
    supported region first overwrites the stored region with its lower case
    and the extension of the reader and of its path builder with
    [.region.ext], as the docstrings say; and in every case the same call
    made again gives the same result. *)
Theorem C9_region_argument_overwrites `{Externals} (r : Reader) (rs : list string)
    (issue valid : datetime) (region field : option string) :
  regions (_product r) = Some rs ->
  let g := default EmptyString region in
  let ext := "." +:+ lower g +:+ file_ext (_product r) in
  let r' := if truthy_str region && negb (String.eqb g (_region r)) && str_in g rs
            then set__path_builder_file_ext ext (set__file_ext ext (set__region (lower g) r))
            else r in
  snd (Lab.get_local_filename issue valid region field r) = r'
  /\ snd (Lab.get_source_path issue valid region r) = r'
  /\ Lab.get_local_filename issue valid region field r'
     = Lab.get_local_filename issue valid region field r
  /\ Lab.get_source_path issue valid region r'
     = Lab.get_source_path issue valid region r.
Proof.
  intros Hrs g ext r'.
  destruct (truthy_str region && negb (String.eqb g (_region r))) eqn:Hcall.
  - (* set_region is called *)
    destruct (str_in g rs) eqn:Hin.
    + (* and the region is supported *)
      pose proof (set_region_supported r rs g Hrs Hin) as Hset.
      assert (Hrs' : regions (_product r') = Some rs) by (subst r'; exact Hrs).
      pose proof (set_region_supported r' rs g Hrs' Hin) as Hset'.
      assert (Hfix : set__path_builder_file_ext ("." +:+ lower g +:+ file_ext (_product r'))
                       (set__file_ext ("." +:+ lower g +:+ file_ext (_product r'))
                          (set__region (lower g) r')) = r')
        by (subst r' ext; cbn [andb]; destruct r as [? ? [? ? ? ?] ? ?]; reflexivity).
      rewrite Hfix in Hset'.
      assert (Hstored : _region r' = lower g) by (subst r'; reflexivity).
      unfold Lab.get_local_filename, Lab.get_source_path. run_monad.
      fold g. rewrite Hcall, Hset, Hstored.
      destruct (truthy_str region && negb (String.eqb g (lower g))).
      * rewrite Hset'. subst r' ext. cbn [andb]. repeat split; reflexivity.
      * subst r' ext. cbn [andb]. repeat split; reflexivity.
    + (* and the region is refused: the same exception both times *)
      destruct (set_region_unsupported r rs g Hrs Hin) as [Hsame [e He]].
      unfold Lab.get_local_filename, Lab.get_source_path. run_monad.
      fold g. subst r'. cbn [andb]. rewrite Hcall.
      destruct (Lab.set_region g r) as [res rd]. cbn in Hsame, He. subst.
      repeat split; reflexivity.
  - (* no region, or the stored one *)
    unfold Lab.get_local_filename, Lab.get_source_path. run_monad.
    fold g. subst r'. cbn [andb]. rewrite Hcall.
    repeat split; reflexivity.
Qed.

Lemma C9_region_argument_overwrites_witness :
  snd (@Lab.get_local_filename (env_of s5cmd_missing)
         issue_20240905T12 valid_20240905T13 None (Some "RAIN1HR") lab_reader_CO)
  = lab_reader_CO
  /\ snd (Lab.get_source_path issue_20240905T12 valid_20240905T13 None lab_reader_CO)
     = lab_reader_CO.
Proof.
  pose proof (@C9_region_argument_overwrites (env_of s5cmd_missing) lab_reader_CO
                ["CO"; "HI"; "PR"; "GU"; "AK"] issue_20240905T12 valid_20240905T13
                None (Some "RAIN1HR") eq_refl) as [H1 [H2 _]].
  split; [exact H1 | exact H2].
Defined.

(** ** The index file and the [.idx] suffix *)

Lemma restore_after_idx (r : Reader) :
  set__path_builder_file_ext (PathBuilder.file_ext (_path_builder r))
    (set__file_ext (_file_ext r) (idx_reader r)) = r.
Proof. destruct r as [? ? [? ? ? ?] ? ?]. reflexivity. Qed.

Lemma lab_download_file_present `{Externals} (src dest : string)
    (byte_range : option (list string)) (w : World) :
  exists_path w dest = true ->
  Lab._download_file src dest byte_range w = (Ok dest, w).
Proof. intros Hp. unfold Lab._download_file. run_monad. now rewrite Hp. Qed.

Lemma partial_download_file_present `{Externals} (src dest : string)
    (byte_range : option (list string)) (w : World) :
  exists_path w dest = true ->
  Partial._download_file src dest byte_range w = (Ok dest, w).
Proof. intros Hp. unfold Partial._download_file. run_monad. now rewrite Hp. Qed.

(** What [_download_file] of the lab script can do to the world: only the
    destination can change, and only when it was absent; a path returned is
    the destination. *)
Lemma lab_download_file_frame `{Externals} (src dest : string)
    (byte_range : option (list string)) (w w' : World) (res : result string) :
  Lab._download_file src dest byte_range w = (res, w') ->
  (exists_path w dest = true -> w' = w)
  /\ (forall q, q <> dest -> fs w' !! q = fs w !! q)
  /\ (forall p, res = Ok p -> p = dest).
Proof.
  unfold Lab._download_file, download_utils.aws_cp. run_monad.
  destruct (exists_path w dest) eqn:Hp.
  - intros [= <- <-]. repeat split; auto. now intros p [= <-].
  - destruct (cp_result (s5cmd w _)) as [out|e] eqn:Hres.
    + intros [= <- <-]. cbn [fs]. repeat split; [discriminate| |now intros p [= <-]].
      intros q Hq. destruct (cp_written _); [now rewrite lookup_insert_ne|reflexivity].
    + destruct e; intros [= <- <-]; cbn [fs];
        (repeat split; [discriminate| |first [now intros p [= <-] | discriminate]]);
        intros q Hq; (destruct (cp_written _); [now rewrite lookup_insert_ne|reflexivity]).
Qed.

(** [_download_index_file] of the lab script, once the index paths are
    built: one call of [_download_file], then both extensions are put back. *)
Lemma lab_download_index_file_eq `{Externals} (issue valid : datetime)
    (dest_dir src : string) (s : State) :
  PathBuilder.build_path (_path_builder (idx_reader (self s))) issue valid = Ok src ->
  Lab._download_index_file issue valid dest_dir s
  = let dest := path_join dest_dir
                  (local_stem (self s) issue valid None +:+ (_file_ext (self s) +:+ ".idx")) in
    let run := Lab._download_file src dest None (os s) in
    (match fst run with
     | Ok p => Ok (if isfile (snd run) p then Some p else None)
     | Raise e => Raise e
     end,
     {| self := self s; os := snd run |}).
Proof.
  intros Hsrc.
  unfold Lab._download_index_file, Lab.get_local_filename, Lab.get_source_path.
  run_monad.
  destruct s as [[name product [bd sd fb fe] ext region] w].
  unfold idx_reader, local_stem, set__path_builder_file_ext, set__file_ext,
    PathBuilder.set_file_ext in *.
  cbn [self os truthy_str andb _file_ext _path_builder _product_name _product _region
       PathBuilder.file_ext PathBuilder.basedir PathBuilder.subdir
       PathBuilder.file_base] in *.
  rewrite Hsrc.
  destruct (Lab._download_file _ _ None w) as [res w'].
  cbn [fst snd self os _file_ext _path_builder _product_name _product _region].
  destruct res; reflexivity.
Qed.

(** In the lab script the suffix is always taken off again: whether the
    download returns or raises, the reader is as it was before the call. *)
Lemma lab_index_file_restores `{Externals} (issue valid : datetime)
    (dest_dir src : string) (s : State) :
  PathBuilder.build_path (_path_builder (idx_reader (self s))) issue valid = Ok src ->
  self (snd (Lab._download_index_file issue valid dest_dir s)) = self s.
Proof.
  intros Hsrc. rewrite (lab_download_index_file_eq _ _ _ src) by exact Hsrc.
  reflexivity.
Qed.

(** In the other script an index file found on disk ends the call before
    the [try]: the reader keeps the [.idx] suffix on both extensions. *)
Lemma partial_index_file_present `{Externals} (issue valid : datetime)
    (dest_dir src : string) (s : State) :
  PathBuilder.build_path (_path_builder (idx_reader (self s))) issue valid = Ok src ->
  let dest := path_join dest_dir
                (local_stem (self s) issue valid None +:+ "." +:+ _region (self s)
                 +:+ (_file_ext (self s) +:+ ".idx")) in
  exists_path (os s) dest = true ->
  Partial._download_index_file issue valid dest_dir s
  = (Ok (Some dest), {| self := idx_reader (self s); os := os s |}).
Proof.
  intros Hsrc dest Hpresent. subst dest.
  unfold Partial._download_index_file, Partial._get_dest_filepath.
  run_monad.
  destruct s as [[name product [bd sd fb fe] ext region] w].
  unfold idx_reader, local_stem, set__path_builder_file_ext, set__file_ext,
    PathBuilder.set_file_ext in *.
  cbn [self os truthy_str andb _file_ext _path_builder _product_name _product _region
       PathBuilder.file_ext PathBuilder.basedir PathBuilder.subdir
       PathBuilder.file_base] in *.
  rewrite Hsrc, Hpresent. reflexivity.
Qed.

(** C10. In [download_partial_grib.py] the index file found on disk makes
    [_download_index_file] return between the two [+= '.idx'] and the [try]
    whose [finally] would undo them: after the call the reader's extension is
    [.CO.grib2.idx] and its path builder's [.grib2.idx], not the [.CO.grib2]
    and [.grib2] of before the call. *)
Theorem C10_partial_early_return_keeps_idx :
  let s := {| self := partial_reader_CO;
              os := world_with "/data/NBM_20240905T120000Z_20240905T130000Z.CO.CO.grib2.idx"
                               index_VIS_last |} in
  let run := @Partial._download_index_file (env_of s5cmd_missing)
               issue_20240905T12 valid_20240905T13 "/data" s in
  fst run = Ok (Some "/data/NBM_20240905T120000Z_20240905T130000Z.CO.CO.grib2.idx")
  /\ _file_ext (self s) = ".CO.grib2"
  /\ PathBuilder.file_ext (_path_builder (self s)) = ".grib2"
  /\ _file_ext (self (snd run)) = ".CO.grib2.idx"
  /\ PathBuilder.file_ext (_path_builder (self (snd run))) = ".grib2.idx".
Proof. repeat split; vm_compute; reflexivity. Qed.

(** ** The example of the spec *)

(** In the lab script the example gives the remote key of the spec, and the
    local file name of the spec once the timestamps are rendered as there. *)
Lemma lab_example_paths :
  lead_hour issue_20240905T12 valid_20240905T13 = 1
  /\ Lab.get_source_path issue_20240905T12 valid_20240905T13 None lab_reader_CO
     = (Ok ("s3://noaa-nbm-grib2-pds" +:+ "/"
            +:+ "blend.20240905/12/core/blend.t12z.core.f001.co.grib2"), lab_reader_CO)
  /\ @Lab.get_local_filename (env_of s5cmd_missing) issue_20240905T12 valid_20240905T13
       None (Some "RAIN1HR") lab_reader_CO
     = (Ok "NBM_20240905T120000Z_20240905T130000Z_RAIN1HR.co.grib2", lab_reader_CO).
Proof. repeat split; vm_compute; reflexivity. Qed.

Lemma lab_example_local_filename `{Externals} :
  fst (Lab.get_local_filename issue_20240905T12 valid_20240905T13
         None (Some "RAIN1HR") lab_reader_CO)
  = Ok ((("NBM" +:+ "_" +:+ to_compact issue_20240905T12
          +:+ "_" +:+ to_compact valid_20240905T13) +:+ "_" +:+ "RAIN1HR")
        +:+ ".co.grib2").
Proof. reflexivity. Qed.

(** C6. In [download_partial_grib.py] the reader built by
    [Reader('NBM', 'CO')] names the local file of the example with the
    region twice and in upper case ([.CO.CO.grib2], where the claim has
    [.co.grib2]), and its remote key has no region at all ([f001.grib2],
    where the claim has [f001.co.grib2]): [set_region] puts the region into
    [_file_ext], [_get_dest_filepath] adds it again, and the path builder is
    never told. *)
Theorem C6_partial_paths_differ :
  Partial.init "NBM" "CO" = Ok partial_reader_CO
  /\ fst (@Partial._get_dest_filepath (env_of s5cmd_missing)
            issue_20240905T12 valid_20240905T13 (Some "RAIN1HR") partial_reader_CO)
     = Ok "NBM_20240905T120000Z_20240905T130000Z_RAIN1HR.CO.CO.grib2"
  /\ PathBuilder.build_path (_path_builder partial_reader_CO)
       issue_20240905T12 valid_20240905T13
     = Ok ("s3://noaa-nbm-grib2-pds" +:+ "/"
           +:+ "blend.20240905/12/core/blend.t12z.core.f001.grib2").
Proof. repeat split; vm_compute; reflexivity. Qed.

(** The doubled region does not depend on how timestamps are rendered. *)
Lemma partial_example_local_filename `{Externals} :
  fst (Partial._get_dest_filepath issue_20240905T12 valid_20240905T13
         (Some "RAIN1HR") partial_reader_CO)
  = Ok ((("NBM" +:+ "_" +:+ to_compact issue_20240905T12
          +:+ "_" +:+ to_compact valid_20240905T13) +:+ "_" +:+ "RAIN1HR")
        +:+ "." +:+ "CO" +:+ ".CO.grib2").
Proof. reflexivity. Qed.

(** ** [download_field] of the lab script, step by step *)

(** Once the field is known, the timestamps are read and the index source
    path is built, [download_field] is: fetch the index file, read it,
    resolve the byte range, fetch the data file; the reader is the same
    after every step. *)
Lemma lab_download_field_eq `{Externals} (issue_dt valid_dt field dest_dir isrc : string)
    (issue valid : datetime) (s : State) :
  dict_in field (field_lookup (_product (self s))) = true ->
  dt_parse issue_dt = Ok issue ->
  dt_parse valid_dt = Ok valid ->
  PathBuilder.build_path (_path_builder (idx_reader (self s))) issue valid = Ok isrc ->
  Lab.download_field issue_dt valid_dt field dest_dir s
  = let idest := path_join dest_dir
                   (local_stem (self s) issue valid None +:+ (_file_ext (self s) +:+ ".idx")) in
    let run1 := Lab._download_file isrc idest None (os s) in
    let s1 := {| self := self s; os := snd run1 |} in
    match fst run1 with
    | Raise e => (Raise e, s1)
    | Ok q =>
        let index_filepath := if isfile (snd run1) q then Some q else None in
        match (file_lines <-? open_readlines (snd run1) index_filepath ;;
               byterange_of_lines (_product (self s)) field file_lines) with
        | Raise e => (Raise e, s1)
        | Ok byte_range =>
            if truthy_tuple byte_range then
              match PathBuilder.build_path (_path_builder (self s)) issue valid with
              | Raise e => (Raise e, s1)
              | Ok src =>
                  let dest := path_join dest_dir
                                (local_stem (self s) issue valid (Some field)
                                 +:+ _file_ext (self s)) in
                  let run2 := Lab._download_file src dest byte_range (snd run1) in
                  (fst run2, {| self := self s; os := snd run2 |})
              end
            else (Raise (RuntimeError
                           ("Cannot find field " +:+ field +:+ " in index file at "
                            +:+ str_of_optional index_filepath)), s1)
        end
    end.
Proof.
  intros Hin Hi Hv Hsrc.
  unfold Lab.download_field.
  unfold bind at 1. unfold gets at 1. cbn beta iota zeta. rewrite Hin. cbn [negb].
  unfold bind at 1. unfold lift at 1. rewrite Hi.
  unfold bind at 1. unfold lift at 1. rewrite Hv.
  unfold bind at 1. rewrite (lab_download_index_file_eq _ _ _ isrc) by exact Hsrc.
  cbn zeta.
  destruct (Lab._download_file isrc _ None (os s)) as [r1 w1]. cbn [fst snd].
  destruct r1 as [q|e]; [|reflexivity].
  unfold bind at 1. unfold _get_byterange_from_index. cbn [self os].
  destruct (file_lines <-? open_readlines w1 _ ;; _) as [br|e]; [|reflexivity].
  destruct (truthy_tuple br); cbn [negb]; [|reflexivity].
  unfold bind at 1. unfold on_self at 1. rewrite get_source_path_no_region.
  cbn [self os fst snd].
  destruct (PathBuilder.build_path (_path_builder (self s)) issue valid) as [src|e];
    [|reflexivity].
  unfold bind at 1. unfold on_self at 1. rewrite get_local_filename_no_region.
  cbn [self os fst snd]. cbn zeta.
  unfold on_os. cbn [self os]. unfold local_stem.
  destruct (Lab._download_file _ _ _ w1). reflexivity.
Qed.

Lemma lab_download_field_needs_index_source `{Externals}
    (issue_dt valid_dt field dest_dir : string) (issue valid : datetime) (s : State)
    (e : exn) :
  dt_parse issue_dt = Ok issue ->
  dt_parse valid_dt = Ok valid ->
  PathBuilder.build_path (_path_builder (idx_reader (self s))) issue valid = Raise e ->
  forall p, fst (Lab.download_field issue_dt valid_dt field dest_dir s) <> Ok p.
Proof.
  intros Hi Hv Hsrc p.
  unfold Lab.download_field.
  unfold bind at 1. unfold gets at 1. cbn beta iota zeta.
  destruct (dict_in field _); cbn [negb]; [|discriminate].
  unfold bind at 1. unfold lift at 1. rewrite Hi.
  unfold bind at 1. unfold lift at 1. rewrite Hv.
  unfold bind at 1.
  unfold Lab._download_index_file, Lab.get_local_filename, Lab.get_source_path.
  run_monad.
  destruct s as [[name product [bd sd fb fe] ext region] w].
  unfold idx_reader, set__path_builder_file_ext, set__file_ext,
    PathBuilder.set_file_ext in *.
  cbn [self os truthy_str andb _file_ext _path_builder _product_name _product _region
       PathBuilder.file_ext PathBuilder.basedir PathBuilder.subdir
       PathBuilder.file_base] in *.
  rewrite Hsrc. discriminate.
Qed.

Lemma isfile_lookup (w : World) (p : string) :
  isfile w p = true -> exists c, fs w !! p = Some (File c).
Proof.
  unfold isfile. destruct (fs w !! p) as [[c|]|]; try discriminate. eauto.
Qed.

(** ** A field that the index file lacks *)

Lemma no_match_gives_none (p : Product) (field : string) (file_lines : list string) :
  Forall (fun l => _is_line_matching_field p l field = Ok false) file_lines ->
  byterange_of_lines p field file_lines = Ok None.
Proof.
  intros Hall. unfold byterange_of_lines.
  rewrite <- (app_nil_r file_lines) at 2.
  now rewrite loop_skip.
Qed.

(** Where every line of the fetched index file is answered with False, the
    lab script fails with the error that names the field and the index file,
    in the world that the index fetch left: the data file is not fetched. *)
Lemma lab_no_match_not_found `{Externals}
    (issue_dt valid_dt field dest_dir isrc text : string)
    (issue valid : datetime) (s : State) :
  dict_in field (field_lookup (_product (self s))) = true ->
  dt_parse issue_dt = Ok issue ->
  dt_parse valid_dt = Ok valid ->
  PathBuilder.build_path (_path_builder (idx_reader (self s))) issue valid = Ok isrc ->
  let idest := path_join dest_dir
                 (local_stem (self s) issue valid None +:+ (_file_ext (self s) +:+ ".idx")) in
  let run1 := Lab._download_file isrc idest None (os s) in
  fst run1 = Ok idest ->
  fs (snd run1) !! idest = Some (File text) ->
  Forall (fun l => _is_line_matching_field (_product (self s)) l field = Ok false)
         (readlines text) ->
  Lab.download_field issue_dt valid_dt field dest_dir s
  = (Raise (RuntimeError ("Cannot find field " +:+ field +:+ " in index file at "
                          +:+ idest)),
     {| self := self s; os := snd run1 |}).
Proof.
  intros Hin Hi Hv Hsrc idest run1 Hok Hfile Hall.
  rewrite (lab_download_field_eq _ _ _ _ isrc issue valid s Hin Hi Hv Hsrc).
  cbn zeta. fold idest. fold run1. rewrite Hok.
  assert (Hregular : isfile (snd run1) idest = true)
    by (unfold isfile; now rewrite Hfile).
  rewrite Hregular. unfold open_readlines. rewrite Hfile. cbn [bindR].
  rewrite no_match_gives_none by exact Hall. reflexivity.
Qed.

(** C8. The index file holds one well-formed record, temperature at 10 m;
    the field [TEMP] asks for level 2, so no record satisfies its criteria.
    [download_field] fails with the [TypeError] of [str.startswith], not with
    the error that names the field and the index file; the data file is not
    fetched (the only command run is the copy of the index file). *)
Theorem C8_no_match_raises_type_error :
  let s := {| self := lab_reader_CO; os := empty_world |} in
  let run := @Lab.download_field (env_of (s5cmd_of_store (store_of index_TMP_10m_only)))
               "2024-09-05T12:00:00Z" "2024-09-05T13:00:00Z" "TEMP" "/data" s in
  readlines index_TMP_10m_only = [line_TMP_10m]
  /\ length (split colon line_TMP_10m) = 7%nat
  /\ spec_matches [("abbrevName", PyStr "TMP"); ("level", PyInt 2);
                   ("productDefinitionTemplateNumber", PyInt 0)] line_TMP_10m = false
  /\ fst run
     = Raise (TypeError "startswith first arg must be str or a tuple of str, not int")
  /\ calls (os (snd run))
     = [["s5cmd"; "--no-sign-request"; "cp"; idx_uri_co;
         "/data/NBM_20240905T120000Z_20240905T130000Z.co.grib2.idx"]].
Proof. repeat split; vm_compute; reflexivity. Qed.

(** ** Two calls in a row *)

(** Two calls in a row in the lab script: when the first returns a path and
    that path is on disk afterwards, the second returns the same path and
    changes nothing, so it runs no copy command. *)
Lemma lab_download_field_idempotent `{Externals}
    (issue_dt valid_dt field dest_dir p : string) (s s1 : State) :
  Lab.download_field issue_dt valid_dt field dest_dir s = (Ok p, s1) ->
  exists_path (os s1) p = true ->
  Lab.download_field issue_dt valid_dt field dest_dir s1 = (Ok p, s1).
Proof.
  intros Hrun Hp.
  destruct (dict_in field (field_lookup (_product (self s)))) eqn:Hin.
  2:{ unfold Lab.download_field in Hrun. revert Hrun. run_monad. now rewrite Hin. }
  destruct (dt_parse issue_dt) as [issue|e] eqn:Hi.
  2:{ unfold Lab.download_field in Hrun. revert Hrun. run_monad.
      now rewrite Hin, Hi. }
  destruct (dt_parse valid_dt) as [valid|e] eqn:Hv.
  2:{ unfold Lab.download_field in Hrun. revert Hrun. run_monad.
      now rewrite Hin, Hi, Hv. }
  destruct (PathBuilder.build_path (_path_builder (idx_reader (self s))) issue valid)
    as [isrc|e] eqn:Hsrc.
  2:{ exfalso.
      apply (lab_download_field_needs_index_source issue_dt valid_dt field dest_dir
               issue valid s e Hi Hv Hsrc p).
      now rewrite Hrun. }
  rewrite (lab_download_field_eq _ _ _ _ isrc issue valid s Hin Hi Hv Hsrc) in Hrun.
  cbn zeta in Hrun.
  destruct (Lab._download_file isrc _ None (os s)) as [r1 w1] eqn:Hrun1.
  cbn [fst snd] in Hrun.
  destruct r1 as [q|e]; [|discriminate].
  destruct (lab_download_file_frame _ _ _ _ _ _ Hrun1) as (_ & _ & Hq).
  specialize (Hq q eq_refl). subst q.
  set (idest := path_join dest_dir
                  (local_stem (self s) issue valid None +:+ _file_ext (self s) +:+ ".idx"))
    in *.
  destruct (isfile w1 idest) eqn:Hfile.
  2:{ cbn in Hrun. discriminate. }
  destruct (isfile_lookup _ _ Hfile) as [c Hc].
  destruct (file_lines <-? open_readlines w1 (Some idest) ;; _) as [br|e] eqn:Hbr;
    [|discriminate].
  destruct (truthy_tuple br) eqn:Htr; [|discriminate].
  destruct (PathBuilder.build_path (_path_builder (self s)) issue valid) as [src|e] eqn:Hdsrc;
    [|discriminate].
  set (dest := path_join dest_dir
                 (local_stem (self s) issue valid (Some field) +:+ _file_ext (self s))) in *.
  destruct (Lab._download_file src dest br w1) as [r2 w2] eqn:Hrun2.
  cbn [fst snd] in Hrun. injection Hrun as -> <-.
  destruct (lab_download_file_frame _ _ _ _ _ _ Hrun2) as (Hsame & Hother & Hd).
  specialize (Hd p eq_refl). subst p. cbn [os] in Hp.
  (* the index file is still there, with the same text *)
  assert (Hc2 : fs w2 !! idest = Some (File c)).
  { destruct (exists_path w1 dest) eqn:Hd1.
    - now rewrite (Hsame eq_refl).
    - rewrite Hother; [exact Hc|].
      intros ->. unfold exists_path in Hd1. now rewrite Hc in Hd1. }
  assert (Hi2 : exists_path w2 idest = true) by (unfold exists_path; now rewrite Hc2).
  assert (Hf2 : isfile w2 idest = true) by (unfold isfile; now rewrite Hc2).
  rewrite (lab_download_field_eq _ _ _ _ isrc issue valid
             {| self := self s; os := w2 |} Hin Hi Hv Hsrc).
  cbn zeta. cbn [self os]. fold idest.
  rewrite (lab_download_file_present isrc idest None w2 Hi2). cbn [fst snd].
  rewrite Hf2.
  assert (Hbr2 : (file_lines <-? open_readlines w2 (Some idest) ;;
                  byterange_of_lines (_product (self s)) field file_lines) = Ok br).
  { rewrite <- Hbr. unfold open_readlines. now rewrite Hc, Hc2. }
  rewrite Hbr2, Htr, Hdsrc. fold dest.
  rewrite (lab_download_file_present src dest br w2 Hp). reflexivity.
Qed.

(** C5. In [download_partial_grib.py] a first [download_field] succeeds and
    leaves the index file and the data file on disk; the same call made
    again finds the index file, returns early from [_download_index_file]
    with the [.idx] suffix still on both extensions, and so returns another
    path (the data name with [.idx]) after one more copy command. *)
Theorem C5_partial_second_call_copies_again :
  let env := env_of (s5cmd_of_store4 (store_of index_VIS_last)) in
  let s0 := {| self := partial_reader_CO; os := empty_world |} in
  let first := @Partial.download_field env
                 "2024-09-05T12:00:00Z" "2024-09-05T13:00:00Z" "VISIBILITY" "/data" s0 in
  let second := @Partial.download_field env
                  "2024-09-05T12:00:00Z" "2024-09-05T13:00:00Z" "VISIBILITY" "/data"
                  (snd first) in
  fst first = Ok "/data/NBM_20240905T120000Z_20240905T130000Z_VISIBILITY.CO.CO.grib2"
  /\ exists_path (os (snd first))
       "/data/NBM_20240905T120000Z_20240905T130000Z_VISIBILITY.CO.CO.grib2" = true
  /\ length (calls (os (snd first))) = 2%nat
  /\ fst second
     = Ok "/data/NBM_20240905T120000Z_20240905T130000Z_VISIBILITY.CO.CO.grib2.idx"
  /\ length (calls (os (snd second))) = 3%nat.
Proof. repeat split; vm_compute; reflexivity. Qed.

(** ** Facts on strings *)

Lemma str_app_cons (x : ascii) (a b : string) :
  String x a +:+ b = String x (a +:+ b).
Proof. reflexivity. Qed.

Lemma str_app_assoc (a b c : string) : (a +:+ b) +:+ c = a +:+ (b +:+ c).
Proof.
  induction a as [|x a IH]; [reflexivity|].
  rewrite !str_app_cons. now f_equal.
Qed.

Lemma str_app_nil_r (a : string) : a +:+ EmptyString = a.
Proof.
  induction a as [|x a IH]; [reflexivity|].
  rewrite str_app_cons. now f_equal.
Qed.

Lemma str_app_length (a b : string) :
  String.length (a +:+ b) = (String.length a + String.length b)%nat.
Proof.
  induction a as [|x a IH]; [reflexivity|].
  rewrite str_app_cons. cbn [String.length]. now rewrite IH.
Qed.

Lemma str_app_inv_head (a b c : string) : a +:+ b = a +:+ c -> b = c.
Proof.
  induction a as [|x a IH]; [auto|].
  rewrite !str_app_cons. intros [= Heq]. auto.
Qed.

Lemma str_app_inv_tail (a b c : string) : a +:+ c = b +:+ c -> a = b.
Proof.
  revert b. induction a as [|x a IH]; intros [|y b] Heq.
  - reflexivity.
  - apply (f_equal String.length) in Heq.
    rewrite !str_app_length in Heq. cbn [String.length] in Heq. lia.
  - apply (f_equal String.length) in Heq.
    rewrite !str_app_length in Heq. cbn [String.length] in Heq. lia.
  - rewrite !str_app_cons in Heq. injection Heq as -> Heq. f_equal. now apply IH.
Qed.

(** ** The timer *)

Lemma timer_start_ok (now : Z) (tm : ThreadTimer.t) :
  ThreadTimer._status tm <> ThreadTimer.STARTED ->
  ThreadTimer.start now tm
  = (Ok tt, {| ThreadTimer._name := ThreadTimer._name tm;
               ThreadTimer._start := now;
               ThreadTimer._end := ThreadTimer._end tm;
               ThreadTimer._status := ThreadTimer.STARTED |}).
Proof.
  intros Hst. unfold ThreadTimer.start. run_monad.
  destruct (ThreadTimer._status tm); [reflexivity|congruence|reflexivity].
Qed.

Lemma timer_stop_ok (now : Z) (tm : ThreadTimer.t) :
  ThreadTimer._status tm <> ThreadTimer.STOPPED ->
  ThreadTimer.stop now tm
  = (Ok (now - ThreadTimer._start tm),
     {| ThreadTimer._name := ThreadTimer._name tm;
        ThreadTimer._start := ThreadTimer._start tm;
        ThreadTimer._end := now;
        ThreadTimer._status := ThreadTimer.STOPPED |}).
Proof.
  intros Hst. unfold ThreadTimer.stop. run_monad.
  destruct (ThreadTimer._status tm); [reflexivity|reflexivity|congruence].
Qed.

(** X1. A timer that starts when it is built and is stopped later returns
    the difference of the two clock readings, which is not negative on a
    monotonic clock, and is then [STOPPED] with both readings kept. *)
Theorem timer_measures_interval (name : option string) (t0 t1 : Z) :
  t0 <= t1 ->
  exists tm,
    ThreadTimer.init name true t0 = Ok tm
    /\ ThreadTimer.stop t1 tm
       = (Ok (t1 - t0),
          {| ThreadTimer._name := name; ThreadTimer._start := t0;
             ThreadTimer._end := t1; ThreadTimer._status := ThreadTimer.STOPPED |})
    /\ 0 <= t1 - t0.
Proof.
  intros Hle. eexists. split; [reflexivity|]. split; [reflexivity|lia].
Qed.

Lemma timer_measures_interval_witness :
  exists tm,
    ThreadTimer.init (Some "copy") true 1000 = Ok tm
    /\ fst (ThreadTimer.stop 4500 tm) = Ok 3500.
Proof.
  destruct (timer_measures_interval (Some "copy") 1000 4500 ltac:(lia))
    as (tm & Hinit & Hstop & _).
  exists tm. split; [exact Hinit|]. rewrite Hstop. reflexivity.
Defined.

(** X2. Once [start] has succeeded, another [start] raises [RuntimeError]
    and leaves the timer as it was: the first start time is kept. *)
Theorem timer_second_start_raises (tm : ThreadTimer.t) (now1 now2 : Z) :
  fst (ThreadTimer.start now1 tm) = Ok tt ->
  ThreadTimer.start now2 (snd (ThreadTimer.start now1 tm))
  = (Raise (RuntimeError "Cannot call start() twice on same ThreadTimer."),
     snd (ThreadTimer.start now1 tm))
  /\ ThreadTimer._start (snd (ThreadTimer.start now1 tm)) = now1.
Proof.
  unfold ThreadTimer.start. run_monad.
  destruct (ThreadTimer._status tm); cbn; intros Hok;
    try discriminate Hok; split; reflexivity.
Qed.

Lemma timer_second_start_raises_witness :
  fst (ThreadTimer.start 20
         (snd (ThreadTimer.start 10
                 {| ThreadTimer._name := None; ThreadTimer._start := 0;
                    ThreadTimer._end := 0;
                    ThreadTimer._status := ThreadTimer.NOT_STARTED |})))
  = Raise (RuntimeError "Cannot call start() twice on same ThreadTimer.").
Proof.
  destruct (timer_second_start_raises
              {| ThreadTimer._name := None; ThreadTimer._start := 0;
                 ThreadTimer._end := 0;
                 ThreadTimer._status := ThreadTimer.NOT_STARTED |} 10 20 eq_refl)
    as [Hraise _].
  rewrite Hraise. reflexivity.
Defined.

(** X3. Once [stop] has succeeded, another [stop] raises [RuntimeError] and
    changes nothing, so the interval of the first [stop] is the one that
    stays measured. *)
Theorem timer_second_stop_raises (tm : ThreadTimer.t) (now1 now2 elapsed : Z) :
  fst (ThreadTimer.stop now1 tm) = Ok elapsed ->
  ThreadTimer.stop now2 (snd (ThreadTimer.stop now1 tm))
  = (Raise (RuntimeError "Cannot call stop() twice on the same ThreadTimer."),
     snd (ThreadTimer.stop now1 tm))
  /\ ThreadTimer._end (snd (ThreadTimer.stop now1 tm))
     - ThreadTimer._start (snd (ThreadTimer.stop now1 tm)) = elapsed.
Proof.
  unfold ThreadTimer.stop. run_monad.
  destruct (ThreadTimer._status tm); cbn; intros Hok;
    try discriminate Hok; injection Hok as <-; split; reflexivity.
Qed.

Lemma timer_second_stop_raises_witness :
  fst (ThreadTimer.stop 30
         (snd (ThreadTimer.stop 25
                 {| ThreadTimer._name := None; ThreadTimer._start := 10;
                    ThreadTimer._end := 0;
                    ThreadTimer._status := ThreadTimer.STARTED |})))
  = Raise (RuntimeError "Cannot call stop() twice on the same ThreadTimer.").
Proof.
  destruct (timer_second_stop_raises
              {| ThreadTimer._name := None; ThreadTimer._start := 10;
                 ThreadTimer._end := 0;
                 ThreadTimer._status := ThreadTimer.STARTED |} 25 30 15 eq_refl)
    as [Hraise _].
  rewrite Hraise. reflexivity.
Defined.

(** X4. [stop] does not check that the timer was started: on a timer built
    with [auto_start=False] and never started it raises nothing and returns
    the raw clock reading as the elapsed time. *)
Theorem timer_stop_without_start (name : option string) (now0 now : Z)
    (tm : ThreadTimer.t) :
  ThreadTimer.init name false now0 = Ok tm ->
  ThreadTimer.stop now tm
  = (Ok now,
     {| ThreadTimer._name := name; ThreadTimer._start := 0;
        ThreadTimer._end := now; ThreadTimer._status := ThreadTimer.STOPPED |}).
Proof.
  intros [= <-]. unfold ThreadTimer.stop. run_monad. cbn.
  now rewrite Z.sub_0_r.
Qed.

Lemma timer_stop_without_start_witness :
  fst (ThreadTimer.stop 987654321
         {| ThreadTimer._name := None; ThreadTimer._start := 0;
            ThreadTimer._end := 0; ThreadTimer._status := ThreadTimer.NOT_STARTED |})
  = Ok 987654321.
Proof.
  rewrite (timer_stop_without_start None 5 987654321 _ eq_refl). reflexivity.
Defined.

(** X5. [get_result] raises [RuntimeError] unless the timer is [STOPPED];
    the message ends with the status found, and the timer is unchanged. *)
Theorem timer_get_result_needs_stop `{ThreadTimer.FloatFormat} (tm : ThreadTimer.t)
    (sep time_units : string) (precision : Z) :
  ThreadTimer._status tm <> ThreadTimer.STOPPED ->
  ThreadTimer.get_result sep time_units precision tm
  = (Raise (RuntimeError
              ("ThreadTimer must be stopped before getting result. Status: "
               +:+ ThreadTimer.status_str (ThreadTimer._status tm))), tm).
Proof.
  intros Hst. unfold ThreadTimer.get_result. run_monad.
  destruct (ThreadTimer._status tm); [reflexivity|reflexivity|congruence].
Qed.

Lemma timer_get_result_needs_stop_witness :
  exists tm,
    ThreadTimer.init (Some "copy") true 1000 = Ok tm
    /\ fst (@ThreadTimer.get_result exact_format ": " "ms" 2 tm)
       = Raise (RuntimeError
                  "ThreadTimer must be stopped before getting result. Status: STARTED").
Proof.
  eexists. split; [reflexivity|].
  rewrite (@timer_get_result_needs_stop exact_format); [reflexivity|discriminate].
Defined.

(** The invariant that one call keeps: the start reading is not above the
    latest clock reading, and a stopped timer has its end at or after its
    start. *)
Lemma timer_step_invariant (c : ThreadTimer.call) (from : Z) (tm : ThreadTimer.t) :
  from <= ThreadTimer.reading c ->
  ThreadTimer._start tm <= from ->
  (ThreadTimer._status tm = ThreadTimer.STOPPED ->
   ThreadTimer._start tm <= ThreadTimer._end tm) ->
  ThreadTimer._start (ThreadTimer.after c tm) <= ThreadTimer.reading c
  /\ (ThreadTimer._status (ThreadTimer.after c tm) = ThreadTimer.STOPPED ->
      ThreadTimer._start (ThreadTimer.after c tm)
      <= ThreadTimer._end (ThreadTimer.after c tm)).
Proof.
  intros Hfrom Hstart Hstopped.
  destruct c as [now|now]; cbn [ThreadTimer.after ThreadTimer.reading] in *;
    unfold ThreadTimer.start, ThreadTimer.stop; run_monad;
    destruct (ThreadTimer._status tm) eqn:Hst; cbn;
    (split;
     [lia
     |intros Hs;
      first [discriminate Hs
            |lia
            |rewrite Hst in Hs; discriminate Hs
            |apply Hstopped; reflexivity]]).
Qed.

(** X6. Whatever sequence of [start] and [stop] calls is made, failed calls
    included, on a timer built without auto-start and with clock readings
    that start at or above zero and never go back, a timer that ends up
    [STOPPED] holds an interval that is not negative. *)
Theorem timer_elapsed_never_negative (name : option string)
    (cs : list ThreadTimer.call) :
  ThreadTimer.monotonic_from 0 cs ->
  let tm := ThreadTimer.after_all cs
              {| ThreadTimer._name := name; ThreadTimer._start := 0;
                 ThreadTimer._end := 0;
                 ThreadTimer._status := ThreadTimer.NOT_STARTED |} in
  ThreadTimer._status tm = ThreadTimer.STOPPED ->
  0 <= ThreadTimer._end tm - ThreadTimer._start tm.
Proof.
  intros Hmono tm.
  assert (Hgen : forall cs from tm0,
             ThreadTimer.monotonic_from from cs ->
             ThreadTimer._start tm0 <= from ->
             (ThreadTimer._status tm0 = ThreadTimer.STOPPED ->
              ThreadTimer._start tm0 <= ThreadTimer._end tm0) ->
             ThreadTimer._status (ThreadTimer.after_all cs tm0) = ThreadTimer.STOPPED ->
             ThreadTimer._start (ThreadTimer.after_all cs tm0)
             <= ThreadTimer._end (ThreadTimer.after_all cs tm0)).
  { clear. induction cs as [|c cs IH]; intros from tm0 Hm Hs Hst; cbn.
    - exact Hst.
    - destruct Hm as [Hfrom Hrest].
      destruct (timer_step_invariant c from tm0 Hfrom Hs Hst) as [Hs' Hst'].
      apply (IH (ThreadTimer.reading c)); assumption. }
  intros Hstopped.
  enough (ThreadTimer._start tm <= ThreadTimer._end tm) by lia.
  apply (Hgen cs 0); cbn; try assumption; try lia; try discriminate.
Qed.

Lemma timer_elapsed_never_negative_witness :
  let tm := ThreadTimer.after_all
              [ThreadTimer.Stop 5; ThreadTimer.Start 7; ThreadTimer.Start 8;
               ThreadTimer.Stop 12; ThreadTimer.Stop 15]
              {| ThreadTimer._name := None; ThreadTimer._start := 0;
                 ThreadTimer._end := 0;
                 ThreadTimer._status := ThreadTimer.NOT_STARTED |} in
  0 <= ThreadTimer._end tm - ThreadTimer._start tm.
Proof.
  apply (timer_elapsed_never_negative None
           [ThreadTimer.Stop 5; ThreadTimer.Start 7; ThreadTimer.Start 8;
            ThreadTimer.Stop 12; ThreadTimer.Stop 15]).
  - cbn. lia.
  - reflexivity.
Defined.

(** X7. With a unit that is none of [s], [seconds], [ms], [milliseconds],
    [ns], [nanoseconds], [get_result] of a stopped timer formats the number
    -1 whatever was measured. When that formatting gives a text, the result
    is the text, a space, the unit as given, the separator, and then the
    name or, without a name, nothing; when it raises, as for a negative
    precision, that exception is the one [get_result] raises. The timer is
    unchanged in both cases. *)
Theorem timer_unknown_unit_prints_minus_one `{ThreadTimer.FloatFormat}
    (tm : ThreadTimer.t) (sep time_units : string) (precision : Z) :
  ThreadTimer._status tm = ThreadTimer.STOPPED ->
  str_in time_units ["s"; "seconds"; "ms"; "milliseconds"; "ns"; "nanoseconds"] = false ->
  ThreadTimer.get_result sep time_units precision tm
  = (match ThreadTimer.format_f (ThreadTimer.IntVal (-1)) precision with
     | Ok rendered =>
         Ok (rendered +:+ " " +:+ time_units +:+ sep
             +:+ match ThreadTimer._name tm with
                 | Some name => name
                 | None => EmptyString
                 end)
     | Raise e => Raise e
     end, tm).
Proof.
  intros Hst Hunit. unfold ThreadTimer.get_result. run_monad.
  rewrite Hst. cbn [ThreadTimer.status_eqb negb].
  unfold str_in in *. cbn [existsb] in *.
  repeat match type of Hunit with
         | (_ || _)%bool = false => apply orb_false_iff in Hunit; destruct Hunit as [? Hunit]
         end.
  repeat match goal with
         | Hx : String.eqb time_units _ = false |- _ => rewrite Hx; clear Hx
         end.
  cbn [orb].
  destruct (ThreadTimer.format_f (ThreadTimer.IntVal (-1)) precision) as [rendered|e];
    [|reflexivity].
  cbn [join_with].
  destruct (ThreadTimer._name tm) as [[|c name]|]; cbn [truthy_str default];
    rewrite ?str_app_assoc; reflexivity.
Qed.

Lemma timer_unknown_unit_prints_minus_one_witness :
  let tm := {| ThreadTimer._name := Some "copy"; ThreadTimer._start := 1000;
               ThreadTimer._end := 4500; ThreadTimer._status := ThreadTimer.STOPPED |} in
  fst (@ThreadTimer.get_result exact_format ": " "minutes" 2 tm)
  = Ok "-1.00 minutes: copy"
  /\ fst (@ThreadTimer.get_result exact_format ": " "minutes" (-1) tm)
     = Raise (ValueError "Format specifier missing precision").
Proof.
  intros tm. split.
  - rewrite (@timer_unknown_unit_prints_minus_one exact_format tm ": " "minutes" 2
               eq_refl eq_refl).
    reflexivity.
  - rewrite (@timer_unknown_unit_prints_minus_one exact_format tm ": " "minutes" (-1)
               eq_refl eq_refl).
    reflexivity.
Defined.

(** ** Reading a byte count *)










(** ** The size of a remote object *)

(** X8. When the [s5cmd] command cannot be started, [aws_du] raises nothing
    and returns the integer -1, in both modes; the command was tried once
    and no local file was touched. *)
Theorem aws_du_missing_tool `{Externals} (path : string) (exclude : option string)
    (humanize : bool) (w : World) (msg : string) :
  cp_result (s5cmd w (aws_du_commands path exclude humanize))
  = Raise (FileNotFoundError msg) ->
  aws_du path exclude humanize w
  = (Ok (PyInt (-1)),
     {| fs := fs w;
        calls := (calls w ++ [aws_du_commands path exclude humanize])%list |}).
Proof.
  intros Hres. unfold aws_du, exec_cmd_readonly. run_monad.
  now rewrite Hres.
Qed.

Lemma aws_du_missing_tool_witness :
  fst (@aws_du (env_of s5cmd_missing) data_uri_co (Some "*.idx") true empty_world)
  = Ok (PyInt (-1)).
Proof.
  rewrite (@aws_du_missing_tool (env_of s5cmd_missing) data_uri_co (Some "*.idx") true
             empty_world "[Errno 2] No such file or directory: 's5cmd'" eq_refl).
  reflexivity.
Defined.



(** X10. When the command succeeds but prints nothing, [aws_du] does not
    return -1: the [IndexError] of [result[0]] escapes, since only
    [FileNotFoundError] is caught. *)
Theorem aws_du_empty_output `{Externals} (path : string) (exclude : option string)
    (humanize : bool) (w : World) :
  cp_result (s5cmd w (aws_du_commands path exclude humanize)) = Ok [] ->
  fst (aws_du path exclude humanize w) = Raise (IndexError "list index out of range").
Proof.
  intros Hres. unfold aws_du, exec_cmd_readonly. run_monad.
  now rewrite Hres.
Qed.

Lemma aws_du_empty_output_witness :
  fst (@aws_du (env_of (fun _ _ => {| cp_written := None; cp_result := Ok [] |}))
         data_uri_co None true empty_world)
  = Raise (IndexError "list index out of range").
Proof.
  apply (@aws_du_empty_output
           (env_of (fun _ _ => {| cp_written := None; cp_result := Ok [] |}))
           data_uri_co None true empty_world).
  reflexivity.
Defined.

(** ** The range that the older script asks for *)

(** X11. In [download_partial_grib.py] the range that [_download_file] puts
    on the command line comes from the first two CHARACTERS of the offset
    text that [tuple] split up: [bytes=c1-c2], or [bytes=c1-] for an offset
    of one character, and no range for an empty offset. *)
Theorem partial_range_from_offset_characters `{Externals} (src dest offset : string)
    (byte_range : list string) (w : World) :
  py_tuple [offset] = Ok byte_range ->
  exists_path w dest = false ->
  calls (snd (Partial._download_file src dest (Some byte_range) w))
  = (calls w
     ++ [ ["s5cmd"; "--no-sign-request"; "cp"; src; dest]
          ++ match offset with
             | EmptyString => []
             | String c1 EmptyString =>
                 ["--metadata"; "bytes=" +:+ String c1 EmptyString +:+ "-"]
             | String c1 (String c2 _) =>
                 ["--metadata";
                  "bytes=" +:+ String c1 EmptyString +:+ "-" +:+ String c2 EmptyString]
             end ])%list.
Proof.
  intros [= <-] Habsent.
  unfold Partial._download_file, Partial.aws_cp. run_monad.
  rewrite Habsent.
  destruct offset as [|c1 [|c2 rest]]; cbn [chars];
    destruct (cp_result _) as [out|[]]; reflexivity.
Qed.

Lemma partial_range_from_offset_characters_witness :
  calls (snd (@Partial._download_file (env_of s5cmd_missing) data_uri_plain
                "/data/f.grib2" (Some ["3"; "8"; "6"; "6"; "6"; "7"; "7"]) empty_world))
  = [["s5cmd"; "--no-sign-request"; "cp"; data_uri_plain; "/data/f.grib2";
      "--metadata"; "bytes=3-8"]].
Proof.
  apply (@partial_range_from_offset_characters (env_of s5cmd_missing) data_uri_plain
           "/data/f.grib2" "3866677" _ empty_world); reflexivity.
Defined.

(** ** What a download adds to the world *)

Lemma grows_by_refl (k : nat) (w : World) : grows_by k w w.
Proof.
  split; [|auto]. exists []. rewrite app_nil_r. repeat split; [cbn; lia|constructor].
Qed.

Lemma grows_by_trans (k1 k2 k : nat) (w w1 w2 : World) :
  grows_by k1 w w1 -> grows_by k2 w1 w2 -> (k1 + k2 <= k)%nat -> grows_by k w w2.
Proof.
  intros [(a1 & Hc1 & Hl1 & Hp1) Hf1] [(a2 & Hc2 & Hl2 & Hp2) Hf2] Hk. split.
  - exists (a1 ++ a2)%list. rewrite Hc2, Hc1, app_assoc, length_app.
    repeat split; [lia|]. apply Forall_app. now split.
  - auto.
Qed.

Lemma lab_download_file_grows `{Externals} (src dest : string)
    (byte_range : option (list string)) (w : World) :
  grows_by 1 w (snd (Lab._download_file src dest byte_range w)).
Proof.
  unfold Lab._download_file, download_utils.aws_cp. run_monad.
  destruct (exists_path w dest) eqn:Hp; [apply grows_by_refl|].
  assert (Hgrow : grows_by 1 w
            {| fs := match cp_written
                             (s5cmd w (download_utils.aws_cp_commands src dest None None false))
                     with
                     | Some content => <[dest := File content]> (fs w)
                     | None => fs w
                     end;
               calls := (calls w
                         ++ [download_utils.aws_cp_commands src dest None None false])%list |}).
  { split; cbn [fs calls].
    - eexists. split; [reflexivity|]. split; [cbn; lia|].
      constructor; [|constructor]. now exists src, dest.
    - intros p n Hpn. destruct (cp_written _); [|exact Hpn].
      rewrite lookup_insert_ne; [exact Hpn|].
      intros ->. unfold exists_path in Hp. now rewrite Hpn in Hp. }
  destruct (cp_result _) as [out|[]]; exact Hgrow.
Qed.

Lemma adds_bind {A B : Type} (k1 k2 k : nat) (m : M State A) (f : A -> M State B) :
  adds_copies k1 m -> (forall a, adds_copies k2 (f a)) -> (k1 + k2 <= k)%nat ->
  adds_copies k (bind m f).
Proof.
  intros Hm Hf Hk s. unfold bind. specialize (Hm s).
  destruct (m s) as [[a|e] s1]; cbn [snd] in *.
  - eapply grows_by_trans; [exact Hm|apply Hf|exact Hk].
  - eapply grows_by_trans; [exact Hm|apply (grows_by_refl 0)|lia].
Qed.

Lemma adds_nothing {A : Type} (k : nat) (m : M State A) :
  (forall s, os (snd (m s)) = os s) -> adds_copies k m.
Proof. intros Hm s. rewrite Hm. apply grows_by_refl. Qed.

Lemma adds_on_self {A : Type} (k : nat) (m : M Reader A) : adds_copies k (on_self m).
Proof.
  apply adds_nothing. intros s. unfold on_self. now destruct (m (self s)).
Qed.

Lemma adds_download_file `{Externals} (k : nat) (src dest : string)
    (byte_range : option (list string)) :
  (1 <= k)%nat -> adds_copies k (on_os (Lab._download_file src dest byte_range)).
Proof.
  intros Hk s. unfold on_os.
  pose proof (lab_download_file_grows src dest byte_range (os s)) as Hg.
  destruct (Lab._download_file src dest byte_range (os s)) as [r w']. cbn [snd os] in *.
  eapply grows_by_trans; [exact Hg|apply (grows_by_refl 0)|lia].
Qed.

Lemma lab_download_index_file_adds `{Externals} (issue valid : datetime)
    (dest_dir : string) :
  adds_copies 1 (Lab._download_index_file issue valid dest_dir).
Proof.
  unfold Lab._download_index_file.
  eapply (adds_bind 0 1 1); [apply adds_nothing; reflexivity| intros ext0 |lia].
  eapply (adds_bind 0 1 1); [apply adds_nothing; reflexivity| intros ext1 |lia].
  eapply (adds_bind 0 1 1); [apply adds_on_self| intros u1 |lia].
  eapply (adds_bind 0 1 1); [apply adds_on_self| intros u2 |lia].
  eapply (adds_bind 0 1 1); [apply adds_on_self| intros local_name |lia].
  eapply (adds_bind 0 1 1); [apply adds_on_self| intros index_src |lia].
  eapply (adds_bind 1 0 1); [| intros ?; apply adds_nothing; reflexivity |lia].
  intros s. unfold try_finally.
  pose proof (adds_download_file 1 index_src (path_join dest_dir local_name) None
                (le_n 1) s) as Hg.
  destruct (on_os (Lab._download_file index_src (path_join dest_dir local_name) None) s)
    as [r s1].
  cbn [snd] in Hg. cbn. exact Hg.
Qed.

(** X12. Whatever [download_field] of the lab script returns or raises, it
    ran at most two commands; each is the plain copy [s5cmd
    --no-sign-request cp source destination], so the byte range it resolved
    is never sent; and every path that was on disk before is still there
    with what it held. *)
Theorem lab_download_field_adds_two_plain_copies `{Externals}
    (issue_dt valid_dt field dest_dir : string) (s : State) :
  grows_by 2 (os s) (os (snd (Lab.download_field issue_dt valid_dt field dest_dir s))).
Proof.
  revert s. change (adds_copies 2 (Lab.download_field issue_dt valid_dt field dest_dir)).
  unfold Lab.download_field.
  eapply (adds_bind 0 2 2); [apply adds_nothing; reflexivity| intros product |lia].
  destruct (negb _); [apply adds_nothing; reflexivity|].
  eapply (adds_bind 0 2 2); [apply adds_nothing; reflexivity| intros issue |lia].
  eapply (adds_bind 0 2 2); [apply adds_nothing; reflexivity| intros valid |lia].
  eapply (adds_bind 1 1 2); [apply lab_download_index_file_adds| intros index |lia].
  eapply (adds_bind 0 1 1); [apply adds_nothing; reflexivity| intros byte_range |lia].
  destruct (negb _); [apply adds_nothing; reflexivity|].
  eapply (adds_bind 0 1 1); [apply adds_on_self| intros s3_path |lia].
  eapply (adds_bind 0 1 1); [apply adds_on_self| intros dest_filepath |lia].
  apply adds_download_file. lia.
Qed.

(** ** [download_field] of the lab script: failures on the way *)

(** X13. When the index file is not on disk and the [s5cmd] command cannot
    be started, [download_field] of the lab script does not report the
    missing tool: [aws_cp] swallows it, no index file appears, and the call
    ends in the [TypeError] of [open(None)], after that one command. *)
Theorem lab_missing_tool_ends_in_type_error `{Externals}
    (issue_dt valid_dt field dest_dir isrc msg : string)
    (issue valid : datetime) (s : State) :
  dict_in field (field_lookup (_product (self s))) = true ->
  dt_parse issue_dt = Ok issue ->
  dt_parse valid_dt = Ok valid ->
  PathBuilder.build_path (_path_builder (idx_reader (self s))) issue valid = Ok isrc ->
  let idest := path_join dest_dir
                 (local_stem (self s) issue valid None +:+ (_file_ext (self s) +:+ ".idx")) in
  let command := download_utils.aws_cp_commands isrc idest None None false in
  exists_path (os s) idest = false ->
  s5cmd (os s) command
  = {| cp_written := None; cp_result := Raise (FileNotFoundError msg) |} ->
  Lab.download_field issue_dt valid_dt field dest_dir s
  = (Raise (TypeError "expected str, bytes or os.PathLike object, not NoneType"),
     {| self := self s;
        os := {| fs := fs (os s); calls := (calls (os s) ++ [command])%list |} |}).
Proof.
  intros Hin Hi Hv Hsrc idest command Habsent Htool.
  rewrite (lab_download_field_eq _ _ _ _ isrc issue valid s Hin Hi Hv Hsrc).
  cbn zeta. fold idest.
  assert (Hrun : Lab._download_file isrc idest None (os s)
                 = (Ok idest, {| fs := fs (os s);
                                 calls := (calls (os s) ++ [command])%list |})).
  { unfold Lab._download_file, download_utils.aws_cp. run_monad.
    rewrite Habsent. fold command. now rewrite Htool. }
  rewrite Hrun. cbn [fst snd].
  assert (Hnofile : isfile {| fs := fs (os s);
                              calls := (calls (os s) ++ [command])%list |} idest = false).
  { unfold isfile, exists_path in *. cbn [fs].
    destruct (fs (os s) !! idest); [discriminate|reflexivity]. }
  rewrite Hnofile. reflexivity.
Qed.

Lemma lab_missing_tool_ends_in_type_error_witness :
  fst (@Lab.download_field (env_of s5cmd_missing)
         "2024-09-05T12:00:00Z" "2024-09-05T13:00:00Z" "VISIBILITY" "/data"
         {| self := lab_reader_CO; os := empty_world |})
  = Raise (TypeError "expected str, bytes or os.PathLike object, not NoneType").
Proof.
  rewrite (@lab_missing_tool_ends_in_type_error (env_of s5cmd_missing)
             "2024-09-05T12:00:00Z" "2024-09-05T13:00:00Z" "VISIBILITY" "/data"
             idx_uri_co "[Errno 2] No such file or directory: 's5cmd'"
             issue_20240905T12 valid_20240905T13
             {| self := lab_reader_CO; os := empty_world |});
    reflexivity.
Defined.

(** X14. After [download_field] of the lab script the reader is as it was,
    with one exception: when building the source path of the index file
    raises, the exception leaves the call before the [try], and both
    extensions of the reader keep the [.idx] suffix. *)
Theorem lab_download_field_reader_after `{Externals}
    (issue_dt valid_dt field dest_dir : string) (s : State) :
  self (snd (Lab.download_field issue_dt valid_dt field dest_dir s)) = self s
  \/ exists issue valid e,
       dt_parse issue_dt = Ok issue
       /\ dt_parse valid_dt = Ok valid
       /\ PathBuilder.build_path (_path_builder (idx_reader (self s))) issue valid = Raise e
       /\ Lab.download_field issue_dt valid_dt field dest_dir s
          = (Raise e, {| self := idx_reader (self s); os := os s |}).
Proof.
  destruct (dict_in field (field_lookup (_product (self s)))) eqn:Hin.
  2:{ left. unfold Lab.download_field. run_monad. now rewrite Hin. }
  destruct (dt_parse issue_dt) as [issue|e] eqn:Hi.
  2:{ left. unfold Lab.download_field. run_monad. now rewrite Hin, Hi. }
  destruct (dt_parse valid_dt) as [valid|e] eqn:Hv.
  2:{ left. unfold Lab.download_field. run_monad. now rewrite Hin, Hi, Hv. }
  destruct (PathBuilder.build_path (_path_builder (idx_reader (self s))) issue valid)
    as [isrc|e] eqn:Hsrc.
  - left.
    rewrite (lab_download_field_eq _ _ _ _ isrc issue valid s Hin Hi Hv Hsrc).
    cbn zeta.
    destruct (fst (Lab._download_file _ _ None (os s))); [|reflexivity].
    destruct (file_lines <-? open_readlines _ _ ;; _) as [br|]; [|reflexivity].
    destruct (truthy_tuple br); [|reflexivity].
    destruct (PathBuilder.build_path (_path_builder (self s)) issue valid); reflexivity.
  - right. exists issue, valid, e. repeat split; try assumption.
    unfold Lab.download_field.
    unfold bind at 1. unfold gets at 1. cbn beta iota zeta. rewrite Hin. cbn [negb].
    unfold bind at 1. unfold lift at 1. rewrite Hi.
    unfold bind at 1. unfold lift at 1. rewrite Hv.
    unfold bind at 1.
    unfold Lab._download_index_file, Lab.get_local_filename, Lab.get_source_path.
    run_monad.
    destruct s as [[name product [bd sd fb fe] ext region] w].
    unfold idx_reader, set__path_builder_file_ext, set__file_ext,
      PathBuilder.set_file_ext in *.
    cbn [self os truthy_str andb _file_ext _path_builder _product_name _product _region
         PathBuilder.file_ext PathBuilder.basedir PathBuilder.subdir
         PathBuilder.file_base] in *.
    rewrite Hsrc. reflexivity.
Qed.

(** ** Names of local files *)

(** X15. The name of the index file is the name of no data file: with an
    extension that begins with a dot, as [set_region] makes it, the local
    name built for the index differs from the local name built for any
    field, and from the name built without a field. *)
Theorem lab_index_name_is_no_data_name `{Externals} (r : Reader)
    (issue valid : datetime) (field : option string) (rest : string) :
  _file_ext r = "." +:+ rest ->
  fst (Lab.get_local_filename issue valid None None (idx_reader r))
  <> fst (Lab.get_local_filename issue valid None field r).
Proof.
  intros Hext. rewrite !get_local_filename_no_region. cbn [fst truthy_str].
  replace (_product_name (idx_reader r)) with (_product_name r) by reflexivity.
  replace (_file_ext (idx_reader r)) with (_file_ext r +:+ ".idx") by reflexivity.
  set (stem := _product_name r +:+ "_" +:+ to_compact issue +:+ "_" +:+ to_compact valid).
  intros [= Heq]. revert Heq.
  destruct (truthy_str field).
  - rewrite str_app_assoc. intros Heq%str_app_inv_head.
    rewrite Hext in Heq. discriminate Heq.
  - intros Heq%str_app_inv_head.
    apply (f_equal String.length) in Heq. rewrite str_app_length in Heq.
    cbn in Heq. lia.
Qed.

Lemma lab_index_name_is_no_data_name_witness :
  fst (@Lab.get_local_filename (env_of s5cmd_missing) issue_20240905T12 valid_20240905T13
         None None (idx_reader lab_reader_CO))
  <> fst (@Lab.get_local_filename (env_of s5cmd_missing) issue_20240905T12
            valid_20240905T13 None (Some "RAIN1HR") lab_reader_CO).
Proof.
  apply (@lab_index_name_is_no_data_name (env_of s5cmd_missing) lab_reader_CO
           issue_20240905T12 valid_20240905T13 (Some "RAIN1HR") "co.grib2").
  reflexivity.
Defined.

(** X16. For the same reader and the same two times, two different field
    names give two different local file names, and a field name gives
    another name than no field: files of different fields never share a
    path in the destination directory. *)
Theorem lab_fields_have_own_names `{Externals} (r : Reader)
    (issue valid : datetime) (field1 field2 : option string) :
  truthy_str field1 = true ->
  field1 <> field2 ->
  fst (Lab.get_local_filename issue valid None field1 r)
  <> fst (Lab.get_local_filename issue valid None field2 r).
Proof.
  intros H1 Hne. rewrite !get_local_filename_no_region. cbn [fst]. rewrite H1.
  set (stem := _product_name r +:+ "_" +:+ to_compact issue +:+ "_" +:+ to_compact valid).
  destruct field1 as [[|c1 f1]|]; try discriminate H1. cbn [default].
  intros [= Heq]. revert Heq.
  destruct (truthy_str field2) eqn:H2.
  - destruct field2 as [[|c2 f2]|]; try discriminate H2. cbn [default].
    rewrite !str_app_assoc. intros Heq%str_app_inv_head.
    change ("_" +:+ String c1 f1 +:+ _file_ext r)
      with (String "_" (String c1 f1 +:+ _file_ext r)) in Heq.
    change ("_" +:+ String c2 f2 +:+ _file_ext r)
      with (String "_" (String c2 f2 +:+ _file_ext r)) in Heq.
    injection Heq as Hc Heq. apply str_app_inv_tail in Heq. congruence.
  - rewrite str_app_assoc. intros Heq%str_app_inv_head.
    apply (f_equal String.length) in Heq. rewrite !str_app_length in Heq.
    cbn in Heq. lia.
Qed.

Lemma lab_fields_have_own_names_witness :
  fst (@Lab.get_local_filename (env_of s5cmd_missing) issue_20240905T12 valid_20240905T13
         None (Some "RAIN1HR") lab_reader_CO)
  <> fst (@Lab.get_local_filename (env_of s5cmd_missing) issue_20240905T12
            valid_20240905T13 None (Some "RAIN6HR") lab_reader_CO).
Proof.
  apply (@lab_fields_have_own_names (env_of s5cmd_missing) lab_reader_CO
           issue_20240905T12 valid_20240905T13 (Some "RAIN1HR") (Some "RAIN6HR"));
    [reflexivity|discriminate].
Defined.

(** ** Building a reader *)

Lemma str_in_In (s : string) (l : list string) : str_in s l = true <-> In s l.
Proof.
  unfold str_in. rewrite existsb_exists. split.
  - intros (x & Hx & Heq). apply String.eqb_eq in Heq. now subst.
  - intros Hin. exists s. split; [exact Hin|apply String.eqb_refl].
Qed.

(** X17. [Reader(product, region)] of the lab script succeeds exactly for the
    product [NBM] with one of the five upper-case region codes; the reader
    it gives stores the region in lower case and has [.region.grib2] as the
    extension of local names and of remote keys alike. *)
Theorem lab_init_succeeds_iff (product region : string) :
  ((exists r, Lab.init product region = Ok r)
   <-> product = "NBM" /\ In region ["CO"; "HI"; "PR"; "GU"; "AK"])
  /\ (forall r, Lab.init product region = Ok r ->
        _region r = lower region
        /\ _file_ext r = "." +:+ lower region +:+ ".grib2"
        /\ PathBuilder.file_ext (_path_builder r) = "." +:+ lower region +:+ ".grib2"
        /\ _product r = Lab.NBM).
Proof.
  unfold Lab.init, Reader_init, Lab.PRODUCTS. cbn [dict_get].
  destruct (String.eqb_spec "NBM" product) as [<-|Hne].
  - unfold Lab.set_region. run_monad. cbn [regions _product Lab.NBM].
    destruct (str_in region ["CO"; "HI"; "PR"; "GU"; "AK"]) eqn:Hin; cbn [negb].
    + apply str_in_In in Hin. split.
      * split; [intros _; now split|intros _; eexists; reflexivity].
      * intros r [= <-]. repeat split.
    + split.
      * split; [intros [r Hr]; discriminate Hr|].
        intros [_ HIn]. apply str_in_In in HIn. congruence.
      * intros r Hr. discriminate Hr.
  - split.
    + split; [intros [r Hr]; discriminate Hr|intros [Heq _]; congruence].
    + intros r Hr. discriminate Hr.
Qed.

(** X18. In [download_partial_grib.py] the remote key does not depend on the
    region: [Reader('NBM', region)] succeeds for every string, stores it as
    given with the extension of local names [.region.grib2], and the readers
    built for any two regions have the same path builder, so they build the
    same source path for the same two times. *)
Theorem partial_remote_key_ignores_region (region1 region2 : string) :
  exists r1 r2,
    Partial.init "NBM" region1 = Ok r1
    /\ Partial.init "NBM" region2 = Ok r2
    /\ _region r1 = region1 /\ _region r2 = region2
    /\ _file_ext r1 = "." +:+ region1 +:+ ".grib2"
    /\ _file_ext r2 = "." +:+ region2 +:+ ".grib2"
    /\ _path_builder r1 = _path_builder r2
    /\ forall issue valid,
         PathBuilder.build_path (_path_builder r1) issue valid
         = PathBuilder.build_path (_path_builder r2) issue valid.
Proof.
  unfold Partial.init, Reader_init, Partial.set_region. cbn [dict_get Partial.PRODUCTS].
  run_monad. do 2 eexists. repeat split; reflexivity.
Qed.

(** X19. [set_region] of the lab script does not take back what it stored:
    after it accepted a region of the [NBM] catalog, a call with the stored
    (lower-case) region raises [ValueError] and changes nothing. *)
Theorem lab_stored_region_is_refused (r : Reader) (region : string) :
  regions (_product r) = Some ["CO"; "HI"; "PR"; "GU"; "AK"] ->
  fst (Lab.set_region region r) = Ok tt ->
  let r' := snd (Lab.set_region region r) in
  _region r' = lower region
  /\ snd (Lab.set_region (_region r') r') = r'
  /\ exists msg, fst (Lab.set_region (_region r') r') = Raise (ValueError msg).
Proof.
  intros Hrs Hok r'.
  destruct (str_in region ["CO"; "HI"; "PR"; "GU"; "AK"]) eqn:Hin.
  2:{ destruct (set_region_unsupported r _ region Hrs Hin) as [_ [e He]].
      rewrite He in Hok. discriminate Hok. }
  pose proof (set_region_supported r _ region Hrs Hin) as Hset.
  subst r'. rewrite Hset. cbn [snd]. split; [reflexivity|].
  cbn [_region set__path_builder_file_ext set__file_ext set__region].
  assert (Hrefused : str_in (lower region) ["CO"; "HI"; "PR"; "GU"; "AK"] = false).
  { apply str_in_In in Hin. cbn in Hin.
    destruct Hin as [<-|[<-|[<-|[<-|[<-|[]]]]]]; reflexivity. }
  unfold Lab.set_region. run_monad.
  cbn [_product set__path_builder_file_ext set__file_ext set__region].
  rewrite Hrs, Hrefused. cbn. split; [reflexivity|eauto].
Qed.

Lemma lab_stored_region_is_refused_witness :
  exists msg,
    fst (Lab.set_region "co" (snd (Lab.set_region "CO" lab_reader_CO)))
    = Raise (ValueError msg).
Proof.
  destruct (lab_stored_region_is_refused lab_reader_CO "CO" eq_refl eq_refl)
    as (_ & _ & msg & Hmsg).
  exists msg. exact Hmsg.
Defined.

(** ** The benchmark helpers *)

(** X20. When [_delete_files] returns, every [rm] succeeded in the order of
    the list: none of the listed paths is on disk any more, every other path
    is as it was, and the commands run are one [rm] per entry, repeated
    entries included. *)
Theorem delete_files_removes_all `{Externals} (filepaths : list string) :
  forall (w w' : World),
    Benchmark._delete_files filepaths w = (Ok tt, w') ->
    (forall f, In f filepaths -> fs w' !! f = None)
    /\ (forall p, ~ In p filepaths -> fs w' !! p = fs w !! p)
    /\ calls w' = (calls w ++ map (fun f => ["rm"; f]) filepaths)%list.
Proof.
  induction filepaths as [|file rest IH]; intros w w'.
  - cbn. intros [= <-]. rewrite app_nil_r.
    split; [intros f []|split; [auto|reflexivity]].
  - cbn [Benchmark._delete_files]. unfold bind at 1, exec_cmd_rm at 1.
    destruct (cp_result (s5cmd w ["rm"; file])) as [out|e]; [|discriminate].
    intros Hrest. apply IH in Hrest as (Hgone & Hkept & Hcalls).
    cbn [fs calls] in *. repeat split.
    + intros f [<-|Hf]; [|now apply Hgone].
      destruct (in_dec string_dec file rest) as [Hin|Hout]; [now apply Hgone|].
      rewrite (Hkept _ Hout). apply lookup_delete_eq.
    + intros p Hp. rewrite Hkept by (intros Hin; apply Hp; now right).
      apply lookup_delete_ne. intros ->. apply Hp. now left.
    + rewrite Hcalls, <- app_assoc. reflexivity.
Qed.

Lemma delete_files_removes_all_witness :
  let env := env_of (fun _ _ => {| cp_written := None; cp_result := Ok [] |}) in
  let w' := snd (@Benchmark._delete_files env ["/data/a.grib2"; "/data/a.grib2"]
                   (world_with "/data/a.grib2" "GRIB")) in
  fs w' !! "/data/a.grib2" = None
  /\ calls w' = [["rm"; "/data/a.grib2"]; ["rm"; "/data/a.grib2"]].
Proof.
  intros env w'.
  destruct (@delete_files_removes_all env ["/data/a.grib2"; "/data/a.grib2"]
              (world_with "/data/a.grib2" "GRIB") w' eq_refl)
    as (Hgone & _ & Hcalls).
  split; [apply Hgone; now left|exact Hcalls].
Defined.

(** X21. [_benchmark_aws_cp] never reuses what is on disk: when the
    destination exists and its [rm] succeeds, the commands run are that
    [rm] and then the one copy that [aws_cp] builds for the given concurrency
    and part size with [--cache-control no-cache], and what is at the
    destination afterwards is what that copy wrote, or nothing. *)
Theorem benchmark_deletes_then_copies `{Externals} `{ThreadTimer.FloatFormat}
    (src_path dest_path : string) (file_size : pyval) (concurrency chunk_size : Z)
    (now_start now_stop : Z) (w : World) (out : list string) :
  exists_path w dest_path = true ->
  cp_result (s5cmd w ["rm"; dest_path]) = Ok out ->
  let w1 := {| fs := delete dest_path (fs w);
               calls := (calls w ++ [["rm"; dest_path]])%list |} in
  let copy := download_utils.aws_cp_commands src_path dest_path
                (Some concurrency) (Some chunk_size) true in
  let w2 := snd (Benchmark._benchmark_aws_cp src_path dest_path file_size
                   [concurrency; chunk_size] now_start now_stop w) in
  calls w2 = (calls w ++ [["rm"; dest_path]; copy])%list
  /\ fs w2 !! dest_path = File <$> cp_written (s5cmd w1 copy).
Proof.
  intros Hpresent Hrm w1 copy w2. subst w2.
  unfold Benchmark._benchmark_aws_cp, download_utils.aws_cp, exec_cmd_rm.
  run_monad. rewrite Hpresent, Hrm. cbn [ThreadTimer.init].
  unfold ThreadTimer.start, ThreadTimer.stop, ThreadTimer.get_result. run_monad.
  cbn [ThreadTimer._status ThreadTimer.status_eqb negb].
  fold copy. fold w1.
  assert (Hfs : match cp_written (s5cmd w1 copy) with
                | Some content => <[dest_path := File content]> (fs w1)
                | None => fs w1
                end !! dest_path = File <$> cp_written (s5cmd w1 copy)).
  { destruct (cp_written (s5cmd w1 copy)); cbn [fmap option_fmap option_map].
    - apply lookup_insert_eq.
    - unfold w1. cbn [fs]. apply lookup_delete_eq. }
  destruct (cp_result (s5cmd w1 copy)) as [done|[]]; cbn [fst snd calls fs];
    try (destruct (ThreadTimer.format_f _ _)); cbn [fst snd calls fs];
    (split; [unfold w1; cbn [calls]; now rewrite <- app_assoc|exact Hfs]).
Qed.

Lemma benchmark_deletes_then_copies_witness :
  let env := env_of (s5cmd_of_store [("rm", "removed"); (data_uri_co, "GRIB....7777")]) in
  let w2 := snd (@Benchmark._benchmark_aws_cp env exact_format data_uri_co
                   "/data/f.grib2" (PyStr "70.0M") [8; 5] 1000 4500
                   (world_with "/data/f.grib2" "stale")) in
  calls w2
  = [["rm"; "/data/f.grib2"];
     ["s5cmd"; "--no-sign-request"; "cp"; "--concurrency"; "8"; "--part-size"; "5";
      "--cache-control"; "no-cache"; data_uri_co; "/data/f.grib2"]]
  /\ fs w2 !! "/data/f.grib2" = Some (File "GRIB....7777").
Proof.
  intros env w2.
  destruct (@benchmark_deletes_then_copies env exact_format data_uri_co "/data/f.grib2"
              (PyStr "70.0M") 8 5 1000 4500 (world_with "/data/f.grib2" "stale") []
              eq_refl eq_refl) as [Hcalls Hfs].
  split; [exact Hcalls|exact Hfs].
Defined.

(** [aws_du] runs its one command and leaves the files alone, whatever it
    returns or raises. *)
Lemma aws_du_world `{Externals} (path : string) (exclude : option string)
    (humanize : bool) (w : World) :
  snd (aws_du path exclude humanize w)
  = {| fs := fs w; calls := (calls w ++ [aws_du_commands path exclude humanize])%list |}.
Proof.
  unfold aws_du, exec_cmd_readonly. run_monad.
  destruct (cp_result (s5cmd w _)) as [[|line more]|[]]; try reflexivity.
  unfold py_index. cbn [nth_error].
  destruct (split (ascii_of_nat 32) line) as [|size rest]; [reflexivity|].
  destruct humanize; [reflexivity|].
  destruct (py_int size) as [n|[]]; reflexivity.
Qed.

(** X22. [_build_file_paths] only looks: when the source path builds, the
    reader and the files are as before, the one command run is [s5cmd
    --no-sign-request du --exclude *.idx [--humanize] source], and a result,
    if there is one, holds that source path and the local name joined to the
    destination directory. *)
Theorem build_file_paths_only_looks `{Externals} (dest_dir src : string)
    (issue valid : datetime) (humanize : bool) (s : State) :
  PathBuilder.build_path (_path_builder (self s)) issue valid = Ok src ->
  let run := Benchmark._build_file_paths dest_dir issue valid humanize s in
  self (snd run) = self s
  /\ fs (os (snd run)) = fs (os s)
  /\ calls (os (snd run))
     = (calls (os s) ++ [aws_du_commands src (Some "*.idx") humanize])%list
  /\ forall src_path dest_path file_size,
       fst run = Ok (src_path, dest_path, file_size) ->
       src_path = src
       /\ dest_path = path_join dest_dir
                        (local_stem (self s) issue valid None +:+ _file_ext (self s)).
Proof.
  intros Hsrc run.
  assert (Hrun : run
                 = (match fst (aws_du src (Some "*.idx") humanize (os s)) with
                    | Ok file_size =>
                        Ok (src,
                            path_join dest_dir
                              (local_stem (self s) issue valid None +:+ _file_ext (self s)),
                            file_size)
                    | Raise e => Raise e
                    end,
                    {| self := self s;
                       os := snd (aws_du src (Some "*.idx") humanize (os s)) |})).
  { subst run. unfold Benchmark._build_file_paths.
    unfold bind at 1. unfold on_self at 1. rewrite get_local_filename_no_region.
    cbn [fst snd self os]. cbn zeta.
    unfold bind at 1. unfold on_self at 1. rewrite get_source_path_no_region.
    cbn [fst snd self os]. rewrite Hsrc.
    unfold bind at 1. unfold on_os at 1. cbn [self os].
    destruct (aws_du src (Some "*.idx") humanize (os s)) as [[size|e] w'];
      reflexivity. }
  rewrite Hrun. cbn [fst snd self os]. rewrite aws_du_world. cbn [fs calls].
  repeat split.
  - destruct (fst (aws_du _ _ _ _)); congruence.
  - destruct (fst (aws_du _ _ _ _)); congruence.
Qed.

Lemma build_file_paths_only_looks_witness :
  let env := env_of (fun _ _ => {| cp_written := None;
                                   cp_result := Ok ["70.0M bytes in 1 objects"] |}) in
  let s := {| self := lab_reader_CO; os := empty_world |} in
  self (snd (@Benchmark._build_file_paths env "/data" issue_20240905T12
               valid_20240905T13 true s)) = lab_reader_CO
  /\ calls (os (snd (@Benchmark._build_file_paths env "/data" issue_20240905T12
                       valid_20240905T13 true s)))
     = [["s5cmd"; "--no-sign-request"; "du"; "--exclude"; "*.idx"; "--humanize";
         data_uri_co]].
Proof.
  intros env s.
  destruct (@build_file_paths_only_looks env "/data" data_uri_co issue_20240905T12
              valid_20240905T13 true s eq_refl) as (Hself & _ & Hcalls & _).
  split; [exact Hself|exact Hcalls].
Defined.

(** X23. [_delete_files] stops at the first [rm] that raises: the exception
    leaves the loop, the paths listed after it are never tried, and the file
    system is as the removals before it left it. *)
Theorem delete_files_stops_at_first_failure `{Externals} (before : list string)
    (file : string) (rest : list string) (e : exn) :
  forall (w w1 : World),
    Benchmark._delete_files before w = (Ok tt, w1) ->
    cp_result (s5cmd w1 ["rm"; file]) = Raise e ->
    Benchmark._delete_files (before ++ file :: rest) w
    = (Raise e, {| fs := fs w1; calls := (calls w1 ++ [["rm"; file]])%list |}).
Proof.
  induction before as [|f before IH]; intros w w1.
  - cbn [Benchmark._delete_files app]. unfold ret. intros [= <-] Hfail.
    unfold bind, exec_cmd_rm. now rewrite Hfail.
  - cbn [Benchmark._delete_files app]. unfold bind.
    destruct (exec_cmd_rm f w) as [[out|e0] w0]; [|discriminate].
    apply IH.
Qed.

Lemma delete_files_stops_at_first_failure_witness :
  let env := env_of (fun _ command =>
                       {| cp_written := None;
                          cp_result := if str_in "/data/b.grib2" command
                                       then Raise (RuntimeError "rm: cannot remove")
                                       else Ok [] |}) in
  let w := {| fs := <["/data/c.grib2" := File "GRIB"]> {["/data/a.grib2" := File "GRIB"]};
              calls := [] |} in
  let run := @Benchmark._delete_files env
               ["/data/a.grib2"; "/data/b.grib2"; "/data/c.grib2"] w in
  fst run = Raise (RuntimeError "rm: cannot remove")
  /\ calls (snd run) = [["rm"; "/data/a.grib2"]; ["rm"; "/data/b.grib2"]]
  /\ fs (snd run) !! "/data/c.grib2" = Some (File "GRIB").
Proof.
  intros env w run.
  pose proof (@delete_files_stops_at_first_failure env ["/data/a.grib2"] "/data/b.grib2"
                ["/data/c.grib2"] (RuntimeError "rm: cannot remove") w
                (snd (@Benchmark._delete_files env ["/data/a.grib2"] w)) eq_refl eq_refl)
    as Hrun.
  cbn [app] in Hrun. subst run. rewrite Hrun. repeat split.
Defined.

(** X24. In the lab script, once a call of [download_field] has returned a
    path that is on disk, any number of further calls with the same arguments
    return that path and leave the reader, the files and the list of commands
    run as they are. *)
Theorem lab_repeated_calls_change_nothing `{Externals}
    (issue_dt valid_dt field dest_dir p : string) (s s1 : State) (n : nat) :
  Lab.download_field issue_dt valid_dt field dest_dir s = (Ok p, s1) ->
  exists_path (os s1) p = true ->
  let again := fun st => snd (Lab.download_field issue_dt valid_dt field dest_dir st) in
  Nat.iter n again s1 = s1
  /\ Lab.download_field issue_dt valid_dt field dest_dir (Nat.iter n again s1) = (Ok p, s1).
Proof.
  intros Hrun Hp again.
  pose proof (lab_download_field_idempotent _ _ _ _ _ _ _ Hrun Hp) as Hfix.
  assert (Hiter : Nat.iter n again s1 = s1).
  { induction n as [|n IH]; [reflexivity|].
    cbn [Nat.iter nat_rect]. change (again (Nat.iter n again s1) = s1).
    rewrite IH. unfold again. now rewrite Hfix. }
  split; [exact Hiter|]. now rewrite Hiter.
Qed.

Lemma lab_repeated_calls_change_nothing_witness :
  let env := env_of (s5cmd_of_store (store_of index_VIS_last)) in
  let first := @Lab.download_field env "2024-09-05T12:00:00Z" "2024-09-05T13:00:00Z"
                 "VISIBILITY" "/data" {| self := lab_reader_CO; os := empty_world |} in
  let again := fun st => snd (@Lab.download_field env "2024-09-05T12:00:00Z"
                                "2024-09-05T13:00:00Z" "VISIBILITY" "/data" st) in
  length (calls (os (snd first))) = 2%nat
  /\ Nat.iter 3 again (snd first) = snd first.
Proof.
  intros env first again. split; [reflexivity|].
  apply (@lab_repeated_calls_change_nothing env "2024-09-05T12:00:00Z"
           "2024-09-05T13:00:00Z" "VISIBILITY" "/data"
           "/data/NBM_20240905T120000Z_20240905T130000Z_VISIBILITY.co.grib2"
           {| self := lab_reader_CO; os := empty_world |} (snd first) 3).
  - vm_compute. reflexivity.
  - vm_compute. reflexivity.
Defined.

(** X25. In the lab script, when the fetched index file is there and the
    matching rule answers False on each of its lines, [download_field] raises
    the [RuntimeError] that names the field and the index file; the reader is
    unchanged and nothing was run after the fetch of the index file, so the
    data file is not asked for. *)
Theorem lab_absent_field_is_reported `{Externals}
    (issue_dt valid_dt field dest_dir isrc text : string)
    (issue valid : datetime) (s : State) :
  dict_in field (field_lookup (_product (self s))) = true ->
  dt_parse issue_dt = Ok issue ->
  dt_parse valid_dt = Ok valid ->
  PathBuilder.build_path (_path_builder (idx_reader (self s))) issue valid = Ok isrc ->
  let idest := path_join dest_dir
                 (local_stem (self s) issue valid None +:+ (_file_ext (self s) +:+ ".idx")) in
  let run1 := Lab._download_file isrc idest None (os s) in
  let run := Lab.download_field issue_dt valid_dt field dest_dir s in
  fst run1 = Ok idest ->
  fs (snd run1) !! idest = Some (File text) ->
  Forall (fun l => _is_line_matching_field (_product (self s)) l field = Ok false)
         (readlines text) ->
  fst run = Raise (RuntimeError ("Cannot find field " +:+ field +:+ " in index file at "
                                 +:+ idest))
  /\ self (snd run) = self s
  /\ os (snd run) = snd run1
  /\ grows_by 1 (os s) (os (snd run)).
Proof.
  intros Hin Hi Hv Hsrc idest run1 run Hok Hfile Hall. subst run.
  rewrite (lab_no_match_not_found _ _ _ _ isrc text issue valid s Hin Hi Hv Hsrc
             Hok Hfile Hall).
  cbn [fst snd self os]. repeat split; try apply lab_download_file_grows.
Qed.

Lemma lab_absent_field_is_reported_witness :
  let env := env_of (s5cmd_of_store (store_of index_TMP_10m_only)) in
  let run := @Lab.download_field env "2024-09-05T12:00:00Z" "2024-09-05T13:00:00Z"
               "VISIBILITY" "/data" {| self := lab_reader_CO; os := empty_world |} in
  fst run
  = Raise (RuntimeError
             ("Cannot find field VISIBILITY in index file at "
              +:+ "/data/NBM_20240905T120000Z_20240905T130000Z.co.grib2.idx"))
  /\ length (calls (os (snd run))) = 1%nat.
Proof.
  intros env run.
  destruct (@lab_absent_field_is_reported env "2024-09-05T12:00:00Z" "2024-09-05T13:00:00Z"
              "VISIBILITY" "/data" idx_uri_co index_TMP_10m_only
              issue_20240905T12 valid_20240905T13
              {| self := lab_reader_CO; os := empty_world |}
              eq_refl eq_refl eq_refl eq_refl eq_refl eq_refl
              ltac:(vm_compute; repeat constructor))
    as (Hfst & _ & _ & _).
  split; [exact Hfst|reflexivity].
Defined.
